(** * Interval algebra of cql-execution: [src/datatypes/interval.js]

    A shallow embedding of the [Interval] class and of the helper functions
    at the end of the file, followed by the properties the specification
    states about them.

    - JavaScript values are the inductive type [value].  [VNull] stands
      for [null] and [undefined] alike; the closed flags of an interval
      are booleans; two objects are never identical ([===]).
    - A boundary that is a plain number, and the value of a Quantity, is
      carried as the rational it denotes ([Q]), and compared as such.  The
      arithmetic of [width], [size] and [getPointSize] is the arithmetic
      of JavaScript numbers, IEEE 754 binary64 (module [Number]): the
      operands are converted with [Number.ofQ], which is exact on every
      rational that is a binary64 value, and each operation rounds as the
      Standard Library's [SpecFloat] specifies.
    - Code that can throw returns a [result], and the binds follow the
      order of evaluation of the source.  The three-valued booleans are
      [option bool]: [None] is the JavaScript [null], "unknown".  An
      absent interval ("no result") is [None] of [option Interval].
    - The modules [./logic], [./uncertainty], [../datatypes/quantity],
      [../util/math] and [../util/comparison] are required by
      [interval.js] and are not part of the sources; what [interval.js]
      uses of them is modelled from the specification, each definition
      saying so.  The date/time values are a parameter, the class
      [Collaborators]. *)

From Stdlib Require Import QArith Qround Qabs ZArith String Bool List Lia Lqa.
From Stdlib Require Import SpecFloat.
Import ListNotations.
Local Open Scope Q_scope.

(** ** Exceptions *)

Inductive exn : Type :=
| UsageError (msg : string)   (* [throw new Error(msg)] *)
| OverFlow                    (* stepping past a sentinel *)
| TypeError.                  (* property or method of null, call of a non-function *)

Inductive result (A : Type) : Type :=
| Ok (a : A)
| Throw (e : exn).

Arguments Ok {A} a.
Arguments Throw {A} e.

Definition bind {A B : Type} (m : result A) (k : A -> result B) : result B :=
  match m with
  | Ok a => k a
  | Throw e => Throw e
  end.

Notation "x <- m ;; k" := (bind m (fun x => k))
  (at level 61, m at next level, right associativity).

(** [try { body } catch (error) { return v }] *)
Definition try_catch {A : Type} (body : result A) (v : A) : result A :=
  match body with
  | Ok a => Ok a
  | Throw _ => Ok v
  end.

(** ** Three-valued logic *)

Definition tri : Type := option bool.

Module ThreeValuedLogic.

(** Modelled from the spec: [ThreeValuedLogic.and] of [./logic], which is
    not part of the sources; section 4.1: false if either is false, true
    if both are true, otherwise unknown. *)
Definition and (a b : tri) : tri :=
  match a, b with
  | Some false, _ | _, Some false => Some false
  | Some true, Some true => Some true
  | _, _ => None
  end.

(** Modelled from the spec: [ThreeValuedLogic.or] of [./logic]; true if
    either is true, false if both are false, otherwise unknown. *)
Definition or (a b : tri) : tri :=
  match a, b with
  | Some true, _ | _, Some true => Some true
  | Some false, Some false => Some false
  | _, _ => None
  end.

(** Modelled from the spec: [ThreeValuedLogic.not] of [./logic]; flips
    true and false, unknown stays unknown. *)
Definition not (a : tri) : tri :=
  match a with
  | Some b => Some (negb b)
  | None => None
  end.

End ThreeValuedLogic.

(** JavaScript truthiness of a three-valued result: only [true] is truthy. *)
Definition truthy (t : tri) : bool :=
  match t with
  | Some true => true
  | _ => false
  end.

(** ** Numbers *)

Definition Qlt_bool (x y : Q) : bool := negb (Qle_bool y x).

(** JavaScript numbers: IEEE 754 binary64, with 53 bits of precision and
    exponents below 1024.  The operations are those of [SpecFloat]; each
    rounds its exact result to the nearest number, ties to even, and
    overflows to an infinity. *)
Module Number.

Definition t : Type := spec_float.

Definition prec : Z := 53.

Definition emax : Z := 1024.

(** [x + y] *)
Definition add (x y : t) : t := SFadd prec emax x y.

(** [x - y] *)
Definition sub (x y : t) : t := SFsub prec emax x y.

(** [x * y] *)
Definition mul (x y : t) : t := SFmul prec emax x y.

(** [x / y] *)
Definition div (x y : t) : t := SFdiv prec emax x y.

(** [Math.abs(x)] *)
Definition abs (x : t) : t := SFabs x.

Definition NaN : t := S754_nan.

(** The number nearest to a rational, ties to even: the quotient of the
    numerator by the denominator, rounded once.  A rational that is a
    binary64 value is that number. *)
Definition ofQ (q : Q) : t :=
  match Qnum q with
  | Z0 => S754_zero false
  | Zpos n => div (S754_finite false n 0) (S754_finite false (Qden q) 0)
  | Zneg n => div (S754_finite true n 0) (S754_finite false (Qden q) 0)
  end.

(** The integer [z] as a number. *)
Definition ofZ (z : Z) : t := ofQ (inject_Z z).

(** The rational a finite number denotes; 0 for the infinities and
    [NaN]. *)
Definition toQ (x : t) : Q :=
  match x with
  | S754_finite s m e =>
      (if s then - (1) else 1) * inject_Z (Zpos m) * (2 # 1) ^ e
  | _ => 0
  end.

Definition isFinite (x : t) : bool :=
  match x with
  | S754_finite _ _ _ | S754_zero _ => true
  | _ => false
  end.

End Number.

(** [Math.round]: the nearest integer, halves towards plus infinity; the
    infinities, [NaN] and the zeros are returned as they are, and a
    negative number that rounds to zero gives the negative zero. *)
Definition Math_round (x : Number.t) : Number.t :=
  match x with
  | S754_finite s _ _ =>
      match Qfloor (Number.toQ x + (1 # 2)) with
      | Z0 => S754_zero s
      | z => binary_normalize Number.prec Number.emax z 0 false
      end
  | _ => x
  end.

(** [Math.round(diff * Math.pow(10, 8)) / Math.pow(10, 8)] *)
Definition round8 (diff : Number.t) : Number.t :=
  Number.div (Math_round (Number.mul diff (Number.ofZ (10 ^ 8))))
    (Number.ofZ (10 ^ 8)).

(** The difference of two boundaries as [width] and [size] take it: the
    absolute value of the rounded difference of the two numbers. *)
Definition distance (a b : Q) : Number.t :=
  Number.abs (Number.sub (Number.ofQ b) (Number.ofQ a)).

(** The relations of the comparison layer. *)
Inductive rel : Type := REq | RLt | RLe | RGt | RGe.

Definition numRel (r : rel) (x y : Q) : bool :=
  match r with
  | REq => Qeq_bool x y
  | RLt => Qlt_bool x y
  | RLe => Qle_bool x y
  | RGt => Qlt_bool y x
  | RGe => Qle_bool y x
  end.

Definition precision : Type := string.

(** ** Collaborators *)

(** Modelled from the spec: the date/time value type and the numeric
    sentinels, which live outside [interval.js].  Section 2 names an
    "ordered-point capability contract" (equality, ordering,
    successor/predecessor stepping, minimum/maximum sentinels,
    precision-qualified comparison); the class is that contract for the
    date/time family, together with the two numeric sentinels.  [dt_compare]
    is the three-valued ordering at an optional precision, [dt_sameAs]
    takes [None] for a null argument. *)
Class Collaborators : Type := {
  MIN_VALUE : Q;
  MAX_VALUE : Q;
  DateTime : Type;
  dt_isDateTime : DateTime -> bool;
  dt_isDate : DateTime -> bool;
  dt_isTime : DateTime -> bool;
  dt_compare : rel -> DateTime -> DateTime -> option precision -> result tri;
  dt_sameAs : DateTime -> option DateTime -> option precision -> result tri;
  dt_add : DateTime -> Z -> precision -> result DateTime;
  dt_successor : DateTime -> result DateTime;
  dt_predecessor : DateTime -> result DateTime;
  dt_minValue : DateTime -> DateTime;
  dt_maxValue : DateTime -> DateTime;
  dt_isMorePrecise : DateTime -> DateTime -> result bool
}.

Section Model.

Context {C : Collaborators}.

(** ** Values *)

Inductive value : Type :=
| VNull
| VNum (n : Q)
| VQuantity (v : Q) (unit : string)
| VTemporal (t : DateTime)
| VUncertainty (low high : value)
| VInterval (low high : value) (lowClosed highClosed : bool).

Record Interval : Type := mkInterval {
  low : value;
  high : value;
  lowClosed : bool;
  highClosed : bool
}.

Definition ofInterval (i : Interval) : value :=
  VInterval (low i) (high i) (lowClosed i) (highClosed i).

Definition isNull (v : value) : bool :=
  match v with VNull => true | _ => false end.

Definition notNull (v : value) : bool := negb (isNull v).

Definition isNumber (v : value) : bool :=
  match v with VNum _ => true | _ => false end.

Definition isInterval (v : value) : bool :=
  match v with VInterval _ _ _ _ => true | _ => false end.

Definition isUncertainty (v : value) : bool :=
  match v with VUncertainty _ _ => true | _ => false end.

Definition isQuantity (v : value) : bool :=
  match v with VQuantity _ _ => true | _ => false end.

Definition isDateTime (v : value) : bool :=
  match v with VTemporal t => dt_isDateTime t | _ => false end.

Definition isDate (v : value) : bool :=
  match v with VTemporal t => dt_isDate t | _ => false end.

Definition isTime (v : value) : bool :=
  match v with VTemporal t => dt_isTime t | _ => false end.

(** [ToNumber] for the operands of [<], [>] and [-]: [null] is 0, an
    object is [NaN] ([None]). *)
Definition toNumber (v : value) : option Q :=
  match v with
  | VNum n => Some n
  | VNull => Some 0
  | _ => None
  end.

Definition js_lt (a b : value) : bool :=
  match toNumber a, toNumber b with
  | Some x, Some y => Qlt_bool x y
  | _, _ => false
  end.

Definition js_gt (a b : value) : bool := js_lt b a.

(** [a - b] on two values: [NaN] unless both convert to numbers. *)
Definition js_minus (a b : value) : Number.t :=
  match toNumber a, toNumber b with
  | Some x, Some y => Number.sub (Number.ofQ x) (Number.ofQ y)
  | _, _ => Number.NaN
  end.

(** [a === b] for the places where the source applies it to boundary
    values: numbers by value, [null] with [null]; two objects are never
    identical here (object identity is not modelled). *)
Definition strictEquals (a b : value) : bool :=
  match a, b with
  | VNum x, VNum y => Qeq_bool x y
  | VNull, VNull => true
  | _, _ => false
  end.

(** ** Three-valued comparison layer ([../util/comparison]) *)

(** Modelled from the spec: the comparison of two operands that are not
    Uncertainties, in [../util/comparison], which is not part of the
    sources.  Section 4.2: an absent operand gives unknown; date/time
    operands go to the date/time collaborator with the optional precision;
    anything else uses the native ordering of the concrete type, and
    incomparable types are a usage error.  Section 3: Quantities require
    equal units, and different units are a usage error. *)
Definition scalarCompare (r : rel) (a b : value) (p : option precision)
  : result tri :=
  match a, b with
  | VNull, _ | _, VNull => Ok None
  | VNum x, VNum y => Ok (Some (numRel r x y))
  | VQuantity x u, VQuantity y v =>
      if String.eqb u v then Ok (Some (numRel r x y))
      else Throw (UsageError "Quantities with different units")
  | VTemporal s, VTemporal t => dt_compare r s t p
  | _, _ => Throw (UsageError "Incomparable operands")
  end.

(** Modelled from the spec: [Uncertainty.from] and the one-argument
    constructor of [./uncertainty]; section 4.3: construction from a
    single value produces the degenerate range [[v, v]]. *)
Definition uncertaintyBounds (v : value) : value * value :=
  match v with
  | VUncertainty l h => (l, h)
  | _ => (v, v)
  end.

(** Modelled from the spec: the answer of a range-aware comparison from
    the test that makes it true and the test that makes it false; section
    4.2: true or false only when one range dominates the other, otherwise
    unknown. *)
Definition decide (isTrue isFalse : tri) : tri :=
  match isTrue, isFalse with
  | Some true, _ => Some true
  | _, Some true => Some false
  | _, _ => None
  end.

(** Modelled from the spec: the ordering of [./uncertainty]; section 4.3:
    [lessThan] is true iff [this.high < other.low], false iff
    [this.low >= other.high], otherwise unknown, with symmetric rules for
    the other relations; two ranges are equal when each is at or above the
    other, and different when one is below the other. *)
Definition uncertainCompare (r : rel) (a b : value) (p : option precision)
  : result tri :=
  let (xl, xh) := uncertaintyBounds a in
  let (yl, yh) := uncertaintyBounds b in
  match r with
  | RLt =>
      t <- scalarCompare RLt xh yl p ;;
      f <- scalarCompare RGe xl yh p ;;
      Ok (decide t f)
  | RLe =>
      t <- scalarCompare RLe xh yl p ;;
      f <- scalarCompare RGt xl yh p ;;
      Ok (decide t f)
  | RGt =>
      t <- scalarCompare RGt xl yh p ;;
      f <- scalarCompare RLe xh yl p ;;
      Ok (decide t f)
  | RGe =>
      t <- scalarCompare RGe xl yh p ;;
      f <- scalarCompare RLt xh yl p ;;
      Ok (decide t f)
  | REq =>
      lt <- scalarCompare RLt xh yl p ;;
      gt <- scalarCompare RGt xl yh p ;;
      ge <- scalarCompare RGe xl yh p ;;
      le <- scalarCompare RLe xh yl p ;;
      Ok (decide (ThreeValuedLogic.and ge le) (ThreeValuedLogic.or lt gt))
  end.

(** Modelled from the spec: the dispatch of [../util/comparison]; section
    4.2: unknown when an operand is absent (the layer is
    "null-propagating", section 2), the range-aware comparison when an
    operand is an Uncertainty, the ordering of the concrete type
    otherwise. *)
Definition compare (r : rel) (a b : value) (p : option precision)
  : result tri :=
  match a, b with
  | VNull, _ | _, VNull => Ok None
  | VUncertainty _ _, _ | _, VUncertainty _ _ => uncertainCompare r a b p
  | _, _ => scalarCompare r a b p
  end.

(** Modelled from the spec: [cmp.equals]; [interval.js] calls it without a
    precision. *)
Definition cmp_equals (a b : value) : result tri := compare REq a b None.

(** Modelled from the spec: [cmp.lessThan]. *)
Definition cmp_lessThan (a b : value) (p : option precision) : result tri :=
  compare RLt a b p.

(** Modelled from the spec: [cmp.lessThanOrEquals]. *)
Definition cmp_lessThanOrEquals (a b : value) (p : option precision)
  : result tri :=
  compare RLe a b p.

(** Modelled from the spec: [cmp.greaterThan]. *)
Definition cmp_greaterThan (a b : value) (p : option precision)
  : result tri :=
  compare RGt a b p.

(** Modelled from the spec: [cmp.greaterThanOrEquals]. *)
Definition cmp_greaterThanOrEquals (a b : value) (p : option precision)
  : result tri :=
  compare RGe a b p.

(** ** Stepping and sentinels ([../util/math]) *)

(** Modelled from the spec: the step of a number in [successor] of
    [../util/math], which is not part of the sources.  Section 3: the
    next representable value, plus 1 for plain numbers; sections 4.4 and
    7: stepping at the maximum sentinel raises. *)
Definition stepUp (n : Q) : result Q :=
  if Qeq_bool n MAX_VALUE then Throw OverFlow else Ok (n + 1).

(** Modelled from the spec: the step of a number in [predecessor] of
    [../util/math]; minus 1, and stepping at the minimum sentinel
    raises. *)
Definition stepDown (n : Q) : result Q :=
  if Qeq_bool n MIN_VALUE then Throw OverFlow else Ok (n - 1).

(** Modelled from the spec: [successor] of [../util/math]; section 4.4
    lists the point types that can be stepped: numbers, Quantities and
    date/time values; stepping anything else raises. *)
Definition successor (v : value) : result value :=
  match v with
  | VNum n => m <- stepUp n ;; Ok (VNum m)
  | VQuantity n u => m <- stepUp n ;; Ok (VQuantity m u)
  | VTemporal t => s <- dt_successor t ;; Ok (VTemporal s)
  | _ => Throw TypeError
  end.

(** Modelled from the spec: [predecessor] of [../util/math], as
    [successor]. *)
Definition predecessor (v : value) : result value :=
  match v with
  | VNum n => m <- stepDown n ;; Ok (VNum m)
  | VQuantity n u => m <- stepDown n ;; Ok (VQuantity m u)
  | VTemporal t => s <- dt_predecessor t ;; Ok (VTemporal s)
  | _ => Throw TypeError
  end.

(** Modelled from the spec: [minValueForInstance] of [../util/math]; the
    minimum sentinel of the type of [v] (sections 3 and 4.4), and null
    when [v] has no such type. *)
Definition minValueForInstance (v : value) : value :=
  match v with
  | VNum _ => VNum MIN_VALUE
  | VQuantity _ u => VQuantity MIN_VALUE u
  | VTemporal t => VTemporal (dt_minValue t)
  | _ => VNull
  end.

(** Modelled from the spec: [maxValueForInstance] of [../util/math], as
    [minValueForInstance]. *)
Definition maxValueForInstance (v : value) : value :=
  match v with
  | VNum _ => VNum MAX_VALUE
  | VQuantity _ u => VQuantity MAX_VALUE u
  | VTemporal t => VTemporal (dt_maxValue t)
  | _ => VNull
  end.

(** ** Methods of the date/time collaborator reached through a value *)

(** Modelled from the spec: [recv.sameAs(arg, precision)], the
    precision-qualified equality of the date/time collaborator (section
    2); only a date/time value has the method. *)
Definition method_sameAs (recv arg : value) (p : option precision)
  : result tri :=
  match recv with
  | VTemporal t =>
      match arg with
      | VNull => dt_sameAs t None p
      | VTemporal s => dt_sameAs t (Some s) p
      | _ => Throw TypeError
      end
  | _ => Throw TypeError
  end.

(** Modelled from the spec: [recv.add(n, precision)], the step of a
    date/time value by [n] units of a precision (section 4.4, meetsBefore
    and meetsAfter). *)
Definition method_add (recv : value) (n : Z) (p : precision) : result value :=
  match recv with
  | VTemporal t => s <- dt_add t n p ;; Ok (VTemporal s)
  | _ => Throw TypeError
  end.

(** Modelled from the spec: [a.isMorePrecise(b)] of the date/time
    collaborator (section 4.4, union); called only when both are
    date/time values. *)
Definition method_isMorePrecise (a b : value) : result bool :=
  match a, b with
  | VTemporal s, VTemporal t => dt_isMorePrecise s t
  | _, _ => Throw TypeError
  end.

(** ** The helper functions at the end of [interval.js] *)

Definition areDateTimes (x y : value) : bool :=
  (notNull x && isDateTime x) && (notNull y && isDateTime y).

Definition numericOperand (z : value) : bool :=
  isNumber z ||
  match z with
  | VUncertainty l _ => isNumber l
  | _ => false
  end.

Definition areNumeric (x y : value) : bool :=
  numericOperand x && numericOperand y.

Definition lowestNumericUncertainty (x y : value) : value :=
  let (xl, xh) := uncertaintyBounds x in
  let (yl, yh) := uncertaintyBounds y in
  let l := if js_lt xl yl then xl else yl in
  let h := if js_lt xh yh then xh else yh in
  if negb (strictEquals l h) then VUncertainty l h else l.

Definition highestNumericUncertainty (x y : value) : value :=
  let (xl, xh) := uncertaintyBounds x in
  let (yl, yh) := uncertaintyBounds y in
  let l := if js_gt xl yl then xl else yl in
  let h := if js_gt xh yh then xh else yh in
  if negb (strictEquals l h) then VUncertainty l h else l.

(** ** The class [Interval] *)

(** The receiver of [item.toClosed()] and the like, when [item] is an
    interval. *)
Definition asInterval (v : value) : option Interval :=
  match v with
  | VInterval l h lc hc => Some (mkInterval l h lc hc)
  | _ => None
  end.

Definition toClosed (this : Interval) : result Interval :=
  let point := if notNull (low this) then low this else high this in
  if isNumber point
     || (notNull point && (isDateTime point || isQuantity point || isDate point))
  then
    l <- (if lowClosed this && isNull (low this)
          then Ok (minValueForInstance point)
          else if negb (lowClosed this) && notNull (low this)
          then successor (low this)
          else Ok (low this)) ;;
    h <- (if highClosed this && isNull (high this)
          then Ok (maxValueForInstance point)
          else if negb (highClosed this) && notNull (high this)
          then predecessor (high this)
          else Ok (high this)) ;;
    let l' := if isNull l then VUncertainty (minValueForInstance point) h
              else l in
    let h' := if isNull h then VUncertainty l' (maxValueForInstance point)
              else h in
    Ok (mkInterval l' h' true true)
  else Ok (mkInterval (low this) (high this) true true).

(** [v.toClosed()] for an arbitrary argument [v]. *)
Definition valueToClosed (v : value) : result Interval :=
  match asInterval v with
  | Some i => toClosed i
  | None => Throw TypeError
  end.

Definition always (_ _ : value) (_ : option precision) : result tri :=
  Ok (Some true).

Definition contains (this : Interval) (item : value) (p : option precision)
  : result tri :=
  atLow <- (if lowClosed this && notNull (low this)
            then e <- cmp_equals (low this) item ;; Ok (truthy e)
            else Ok false) ;;
  if atLow then Ok (Some true) else
  atHigh <- (if highClosed this && notNull (high this)
             then e <- cmp_equals (high this) item ;; Ok (truthy e)
             else Ok false) ;;
  if atHigh then Ok (Some true) else
  if notNull item && isInterval item
  then Throw (UsageError "Argument to contains must be a point")
  else
    let lowFn :=
      if lowClosed this && isNull (low this) then always
      else if lowClosed this then cmp_lessThanOrEquals
      else cmp_lessThan in
    let highFn :=
      if highClosed this && isNull (high this) then always
      else if highClosed this then cmp_greaterThanOrEquals
      else cmp_greaterThan in
    l <- lowFn (low this) item p ;;
    h <- highFn (high this) item p ;;
    Ok (ThreeValuedLogic.and l h).

Definition includes (this : Interval) (other : value) (p : option precision)
  : result tri :=
  match asInterval other with
  | None => contains this other p
  | Some o =>
      a <- toClosed this ;;
      b <- toClosed o ;;
      l <- cmp_lessThanOrEquals (low a) (low b) p ;;
      h <- cmp_greaterThanOrEquals (high a) (high b) p ;;
      Ok (ThreeValuedLogic.and l h)
  end.

Definition overlaps (this : Interval) (item : value) (p : option precision)
  : result tri :=
  closed <- toClosed this ;;
  lh <- match asInterval item with
        | Some i => itemClosed <- toClosed i ;;
                    Ok (low itemClosed, high itemClosed)
        | None => Ok (item, item)
        end ;;
  l <- cmp_lessThanOrEquals (low closed) (snd lh) p ;;
  h <- cmp_greaterThanOrEquals (high closed) (fst lh) p ;;
  Ok (ThreeValuedLogic.and l h).

Definition overlapsAfter (this : Interval) (item : value)
  (p : option precision) : result tri :=
  closed <- toClosed this ;;
  hi <- match asInterval item with
        | Some i => itemClosed <- toClosed i ;; Ok (high itemClosed)
        | None => Ok item
        end ;;
  l <- cmp_lessThanOrEquals (low closed) hi p ;;
  h <- cmp_greaterThan (high closed) hi p ;;
  Ok (ThreeValuedLogic.and l h).

Definition overlapsBefore (this : Interval) (item : value)
  (p : option precision) : result tri :=
  closed <- toClosed this ;;
  lo <- match asInterval item with
        | Some i => itemClosed <- toClosed i ;; Ok (low itemClosed)
        | None => Ok item
        end ;;
  l <- cmp_lessThan (low closed) lo p ;;
  h <- cmp_greaterThanOrEquals (high closed) lo p ;;
  Ok (ThreeValuedLogic.and l h).

(** The [try] block of [meetsAfter]. *)
Definition meetsAfterBody (this : Interval) (other : value)
  (p : option precision) : result tri :=
  match p with
  | Some prec =>
      if notNull (low this) && isDateTime (low this) then
        a <- toClosed this ;;
        b <- valueToClosed other ;;
        arg <- (if notNull (high b) then method_add (high b) 1 prec
                else Ok VNull) ;;
        method_sameAs (low a) arg p
      else
        a <- toClosed this ;;
        b <- valueToClosed other ;;
        s <- successor (high b) ;;
        cmp_equals (low a) s
  | None =>
      a <- toClosed this ;;
      b <- valueToClosed other ;;
      s <- successor (high b) ;;
      cmp_equals (low a) s
  end.

Definition meetsAfter (this : Interval) (other : value)
  (p : option precision) : result tri :=
  try_catch (meetsAfterBody this other p) (Some false).

(** The [try] block of [meetsBefore]. *)
Definition meetsBeforeBody (this : Interval) (other : value)
  (p : option precision) : result tri :=
  match p with
  | Some prec =>
      if notNull (high this) && isDateTime (high this) then
        a <- toClosed this ;;
        b <- valueToClosed other ;;
        arg <- (if notNull (low b) then method_add (low b) (-1) prec
                else Ok VNull) ;;
        method_sameAs (high a) arg p
      else
        a <- toClosed this ;;
        b <- valueToClosed other ;;
        s <- predecessor (low b) ;;
        cmp_equals (high a) s
  | None =>
      a <- toClosed this ;;
      b <- valueToClosed other ;;
      s <- predecessor (low b) ;;
      cmp_equals (high a) s
  end.

Definition meetsBefore (this : Interval) (other : value)
  (p : option precision) : result tri :=
  try_catch (meetsBeforeBody this other p) (Some false).

Definition meets (this : Interval) (other : value) (p : option precision)
  : result tri :=
  mb <- meetsBefore this other p ;;
  ma <- meetsAfter this other p ;;
  Ok (ThreeValuedLogic.or mb ma).

(** The boundary chosen by one [switch (true)] of [union] or [intersect]:
    [first] and [second] are the two comparisons tried in order, [merge]
    the function applied to numeric operands that neither decides, and
    [(x, y)] the order of the operands of [isMorePrecise]. *)
Definition chooseBoundary
  (first second : value -> value -> option precision -> result tri)
  (merge : value -> value -> value)
  (a b : value) (x y : value)
  (mine theirs : value * bool) : result (value * bool) :=
  c1 <- first a b None ;;
  if truthy c1 then Ok mine else
  c2 <- second a b None ;;
  if truthy c2 then Ok theirs else
  if areNumeric a b then Ok (merge a b, true) else
  c4 <- (if areDateTimes a b then method_isMorePrecise x y else Ok false) ;;
  if c4 then Ok theirs else Ok mine.

Definition union (this : Interval) (other : value)
  : result (option Interval) :=
  match asInterval other with
  | None => Throw (UsageError "Argument to union must be an interval")
  | Some o =>
      ov <- overlaps this other None ;;
      defined <- (if truthy ov then Ok true
                  else m <- meets this other None ;; Ok (truthy m)) ;;
      if defined then
        a <- toClosed this ;;
        b <- toClosed o ;;
        l <- chooseBoundary cmp_lessThanOrEquals cmp_greaterThanOrEquals
               lowestNumericUncertainty (low a) (low b) (low a) (low b)
               (low this, lowClosed this) (low o, lowClosed o) ;;
        h <- chooseBoundary cmp_greaterThanOrEquals cmp_lessThanOrEquals
               highestNumericUncertainty (high a) (high b) (high a) (high b)
               (high this, highClosed this) (high o, highClosed o) ;;
        Ok (Some (mkInterval (fst l) (fst h) (snd l) (snd h)))
      else Ok None
  end.

Definition intersect (this : Interval) (other : value)
  : result (option Interval) :=
  match asInterval other with
  | None => Throw (UsageError "Argument to union must be an interval")
  | Some o =>
      ov <- overlaps this other None ;;
      if truthy ov then
        a <- toClosed this ;;
        b <- toClosed o ;;
        l <- chooseBoundary cmp_greaterThanOrEquals cmp_lessThanOrEquals
               highestNumericUncertainty (low a) (low b) (low b) (low a)
               (low this, lowClosed this) (low o, lowClosed o) ;;
        h <- chooseBoundary cmp_lessThanOrEquals cmp_greaterThanOrEquals
               lowestNumericUncertainty (high a) (high b) (high b) (high a)
               (high this, highClosed this) (high o, highClosed o) ;;
        Ok (Some (mkInterval (fst l) (fst h) (snd l) (snd h)))
      else Ok None
  end.

(** [other === null] is the first test of [except]; [VNull] stands for
    [null] here (an [undefined] argument, which throws, has no
    counterpart). *)
Definition except (this : Interval) (other : value)
  : result (option Interval) :=
  match other with
  | VNull => Ok None
  | _ =>
      match asInterval other with
      | None => Throw (UsageError "Argument to except must be an interval")
      | Some o =>
          ol <- overlaps this other None ;;
          match ol with
          | Some true =>
              olb <- overlapsBefore this other None ;;
              ola <- overlapsAfter this other None ;;
              match olb, ola with
              | Some true, Some false =>
                  Ok (Some (mkInterval (low this) (low o)
                              (lowClosed this) (negb (lowClosed o))))
              | Some false, Some true =>
                  Ok (Some (mkInterval (high o) (high this)
                              (negb (highClosed o)) (highClosed this)))
              | _, _ => Ok None
              end
          | Some false => Ok (Some this)
          | None => Ok None
          end
      end
  end.

Definition start (this : Interval) : result value :=
  if isNull (low this) then
    if lowClosed this then Ok (minValueForInstance (high this))
    else Ok (low this)
  else c <- toClosed this ;; Ok (low c).

Definition end_ (this : Interval) : result value :=
  if isNull (high this) then
    if highClosed this then Ok (maxValueForInstance (low this))
    else Ok (high this)
  else c <- toClosed this ;; Ok (high c).

(** [x.isOpenNull]: a boundary that is null with a false closed flag. *)
Definition openNull (v : value) (closed : bool) : bool :=
  isNull v && negb closed.

(** The whole interval is [[null, null]], closed on both sides. *)
Definition unboundedClosed (i : Interval) : bool :=
  lowClosed i && isNull (low i) && highClosed i && isNull (high i).

(** The first [if ... else if] block of [sameAs]: with an open-ended null
    on one side, do the endpoints that both intervals define differ? *)
Definition endpointsDiffer (this other : Interval) (p : option precision)
  : result bool :=
  let tl := notNull (low this) in
  let th := notNull (high this) in
  let ol := notNull (low other) in
  let oh := notNull (high other) in
  if (tl && ol && negb th && oh && negb (highClosed this))
     || (tl && ol && th && negb oh && negb (highClosed other))
     || (tl && ol && negb th && negb oh
         && negb (highClosed other) && negb (highClosed this))
  then
    s <- start this ;;
    s' <- start other ;;
    if isNumber (low this) then Ok (negb (strictEquals s s'))
    else r <- method_sameAs s s' p ;; Ok (negb (truthy r))
  else if (tl && negb ol && th && oh)
          || (negb tl && ol && th && oh)
          || (negb tl && negb ol && th && oh)
  then
    e <- end_ this ;;
    e' <- end_ other ;;
    if isNumber (high this) then Ok (negb (strictEquals e e'))
    else r <- method_sameAs e e' p ;; Ok (negb (truthy r))
  else Ok false.

(** [sameAs] reads [other.low] and the like without a check; the argument
    is an interval. *)
Definition sameAs (this other : Interval) (p : option precision)
  : result tri :=
  differ <- endpointsDiffer this other p ;;
  if differ then Ok (Some false) else
  if openNull (low this) (lowClosed this)
     || openNull (high this) (highClosed this)
     || openNull (low other) (lowClosed other)
     || openNull (high other) (highClosed other)
  then Ok None else
  if unboundedClosed this then Ok (Some (unboundedClosed other)) else
  if unboundedClosed other then Ok (Some false) else
  if isNumber (low this) then
    s <- start this ;;
    s' <- start other ;;
    if strictEquals s s' then
      e <- end_ this ;;
      e' <- end_ other ;;
      Ok (Some (strictEquals e e'))
    else Ok (Some false)
  else
    s <- start this ;;
    s' <- start other ;;
    r <- method_sameAs s s' p ;;
    if truthy r then
      e <- end_ this ;;
      e' <- end_ other ;;
      method_sameAs e e' p
    else Ok r.

Definition equals (this : Interval) (other : value) : result tri :=
  match asInterval other with
  | Some o =>
      a <- toClosed this ;;
      b <- toClosed o ;;
      l <- cmp_equals (low a) (low b) ;;
      h <- cmp_equals (high a) (high b) ;;
      Ok (ThreeValuedLogic.and l h)
  | None => Ok (Some false)
  end.

(** What [width] and [size] return: [null], a number or a Quantity. *)
Inductive measure : Type :=
| MNull
| MNumber (n : Number.t)
| MQuantity (v : Number.t) (unit : string).

Definition temporalFamily (v : value) : bool :=
  notNull v && (isDateTime v || isDate v || isTime v).

Definition width (this : Interval) : result measure :=
  if temporalFamily (low this) || temporalFamily (high this)
  then Throw (UsageError
    "Width of Date, DateTime, and Time intervals is not supported")
  else
    closed <- toClosed this ;;
    if (notNull (low closed) && isUncertainty (low closed))
       || (notNull (high closed) && isUncertainty (high closed))
    then Ok MNull
    else
      match low closed with
      | VNull => Throw TypeError
      | VQuantity lowValue u =>
          match high closed with
          | VNull => Throw TypeError
          | VQuantity highValue u' =>
              if negb (String.eqb u u')
              then Throw (UsageError
                "Cannot calculate width of Quantity Interval with different units")
              else
                let diff :=
                  Number.abs
                    (Number.sub (Number.ofQ highValue)
                       (Number.ofQ lowValue)) in
                let _ := round8 diff in
                Ok (MQuantity diff u)
          | _ => Throw (UsageError
                "Cannot calculate width of Quantity Interval with different units")
          end
      | _ =>
          let diff := Number.abs (js_minus (high closed) (low closed)) in
          Ok (MNumber (round8 diff))
      end.

End Model.

Arguments value {C}.
Arguments Interval {C}.

(** ** A concrete collaborator *)

(** Modelled from the spec: an instance of the collaborators for the
    closed examples.  The specification gives no value for the sentinels;
    these are the bounds of the query language's Integer type.  There is
    no date/time value. *)
Definition cql : Collaborators := {|
  MIN_VALUE := - (2147483648);
  MAX_VALUE := 2147483647;
  DateTime := Empty_set;
  dt_isDateTime := fun t => match t with end;
  dt_isDate := fun t => match t with end;
  dt_isTime := fun t => match t with end;
  dt_compare := fun _ t _ _ => match t with end;
  dt_sameAs := fun t _ _ => match t with end;
  dt_add := fun t _ _ => match t with end;
  dt_successor := fun t => match t with end;
  dt_predecessor := fun t => match t with end;
  dt_minValue := fun t => t;
  dt_maxValue := fun t => t;
  dt_isMorePrecise := fun t _ => match t with end
|}.

(** A scalar point: the plain number [x], or the Quantity of value [x] and
    the given unit. *)
Definition scalar {C : Collaborators} (u : option string) (x : Q) : value :=
  match u with
  | None => VNum x
  | Some unit => VQuantity x unit
  end.

(** [Interval(l, h, lowClosed, highClosed)] over plain numbers ([u] is
    [None]) or over Quantities of one unit. *)
Definition scalarInterval {C : Collaborators} (u : option string) (l h : Q)
  (lc hc : bool) : Interval :=
  mkInterval (scalar u l) (scalar u h) lc hc.

(** [Interval(l, h, lowClosed, highClosed)] over plain numbers. *)
Definition numInterval {C : Collaborators} (l h : Q) (lc hc : bool)
  : Interval :=
  scalarInterval None l h lc hc.


(** The closed low and high boundary of an interval over plain numbers:
    an open boundary is stepped inwards. *)
Definition lowStep {C : Collaborators} (l : Q) (lc : bool) : result Q :=
  if lc then Ok l else stepUp l.

Definition highStep {C : Collaborators} (h : Q) (hc : bool) : result Q :=
  if hc then Ok h else stepDown h.




(** ** Intervals used in the closed examples *)

(** [Interval(null, 5, false, true)]: an open null low boundary. *)
Definition openBelow5 : @Interval cql :=
  mkInterval VNull (VNum 5) false true.

(** [Interval(1, null, true, false)]: an open null high boundary. *)
Definition openAbove1 : @Interval cql :=
  mkInterval (VNum 1) VNull true false.


(** [Interval(null, null, true, true)] *)
Definition unbounded : @Interval cql := mkInterval VNull VNull true true.

(** [Interval(3, 8)] *)
Definition from3to8 : @Interval cql := numInterval 3 8 true true.

(** The interval from the Uncertainty between the minimum and 3 to 8. *)
Definition mergedUnion : @Interval cql :=
  mkInterval (VUncertainty (VNum (@MIN_VALUE cql)) (VNum 3)) (VNum 8)
    true true.

(** The interval from the Uncertainty between 3 and 5 to 5. *)
Definition mergedIntersection : @Interval cql :=
  mkInterval (VUncertainty (VNum 3) (VNum 5)) (VNum 5) true true.

(** [Interval(new Quantity(0, 'm'), new Quantity(2 ** -30, 'm'))] *)
Definition tinyQuantity : @Interval cql :=
  mkInterval (VQuantity 0 "m") (VQuantity (1 # 1073741824) "m") true true.

(** ** Further methods of [Interval] *)

(** [a && b] on two three-valued results already computed: the first
    operand when it is falsy ([false] or [null]), the second otherwise. *)
Definition js_and (a b : tri) : tri :=
  if truthy a then b else a.

(** [precision != null] *)
Definition hasPrecision (p : option precision) : bool :=
  match p with
  | Some _ => true
  | None => false
  end.

Section Further.

Context {C : Collaborators}.

Definition properlyIncludes (this : Interval) (other : value)
  (p : option precision) : result tri :=
  match asInterval other with
  | None =>
      Throw (UsageError "Argument to properlyIncludes must be an interval")
  | Some o =>
      a <- includes this other p ;;
      b <- includes o (ofInterval this) p ;;
      Ok (ThreeValuedLogic.and a (ThreeValuedLogic.not b))
  end.

(** The interval overload calls [other.includes(this)] without the
    precision. *)
Definition includedIn (this : Interval) (other : value)
  (p : option precision) : result tri :=
  match asInterval other with
  | None => contains this other p
  | Some o => includes o (ofInterval this) None
  end.

(** [other.toClosed] is read on the argument: a [null] argument throws,
    an interval has the method, any other value has not. *)
Definition after (this : Interval) (other : value) (p : option precision)
  : result tri :=
  closed <- toClosed this ;;
  match other with
  | VNull => Throw TypeError
  | _ =>
      match asInterval other with
      | Some o =>
          otherClosed <- toClosed o ;;
          cmp_greaterThan (low closed) (high otherClosed) p
      | None => cmp_greaterThan (low closed) other p
      end
  end.

Definition before (this : Interval) (other : value) (p : option precision)
  : result tri :=
  closed <- toClosed this ;;
  match other with
  | VNull => Throw TypeError
  | _ =>
      match asInterval other with
      | Some o =>
          otherClosed <- toClosed o ;;
          cmp_lessThan (high closed) (low otherClosed) p
      | None => cmp_lessThan (high closed) other p
      end
  end.

(** [starts] and [ends] read [other.low] and [other.high] without a
    check; the argument is an interval. *)
Definition starts (this other : Interval) (p : option precision)
  : result tri :=
  startEqual <-
    (if hasPrecision p && notNull (low this) && isDateTime (low this)
     then method_sameAs (low this) (low other) p
     else cmp_equals (low this) (low other)) ;;
  endLessThanOrEqual <- cmp_lessThanOrEquals (high this) (high other) p ;;
  Ok (js_and startEqual endLessThanOrEqual).

Definition ends (this other : Interval) (p : option precision)
  : result tri :=
  startGreaterThanOrEqual <-
    cmp_greaterThanOrEquals (low this) (low other) p ;;
  endEqual <-
    (if hasPrecision p
        && (if notNull (low this) then isDateTime (low this) else false)
     then method_sameAs (high this) (high other) p
     else cmp_equals (high this) (high other)) ;;
  Ok (js_and startGreaterThanOrEqual endEqual).

(** Modelled from the spec: [doSubtraction] of [../datatypes/quantity],
    which is not part of the sources; sections 2 and 3: a Quantity
    supports subtraction when the units match, and different units are a
    usage error.  [getPointSize] calls it with two Quantities only. *)
Definition doSubtraction (a b : value) : result value :=
  match a, b with
  | VQuantity x u, VQuantity y v =>
      if String.eqb u v then Ok (VQuantity (x - y) u)
      else Throw (UsageError "Quantities with different units")
  | _, _ => Throw TypeError
  end.

Section PointSize.

(** [getPrecision] of the date/time collaborator: the unit of its stored
    precision. *)
Variable getPrecision : DateTime -> string.

(** The point size read from one boundary that is not null; the result is
    the value and the unit of the Quantity [getPointSize] returns (a
    number is wrapped with the unit ['1']). *)
Definition pointSizeOf (v : value) : result (Number.t * string) :=
  match v with
  | VTemporal t =>
      if dt_isDateTime t then Ok (Number.ofZ 1, getPrecision t)
      else s <- successor v ;; Ok (js_minus s v, "1"%string)
  | VQuantity _ _ =>
      s <- successor v ;;
      d <- doSubtraction s v ;;
      match d with
      | VQuantity x u => Ok (Number.ofQ x, u)
      | _ => Throw TypeError
      end
  | _ => s <- successor v ;; Ok (js_minus s v, "1"%string)
  end.

Definition getPointSize (this : Interval) : result (Number.t * string) :=
  if notNull (low this) then pointSizeOf (low this)
  else if notNull (high this) then pointSizeOf (high this)
  else Throw (UsageError "Point type of intervals cannot be determined.").

Definition size (this : Interval) : result measure :=
  pointSize <- getPointSize this ;;
  if temporalFamily (low this) || temporalFamily (high this)
  then Throw (UsageError
    "Size of Date, DateTime, and Time intervals is not supported")
  else
    closed <- toClosed this ;;
    if (notNull (low closed) && isUncertainty (low closed))
       || (notNull (high closed) && isUncertainty (high closed))
    then Ok MNull
    else
      match low closed with
      | VNull => Throw TypeError
      | VQuantity lowValue u =>
          match high closed with
          | VNull => Throw TypeError
          | VQuantity highValue u' =>
              if negb (String.eqb u u')
              then Throw (UsageError
                "Cannot calculate size of Quantity Interval with different units")
              else
                let diff :=
                  Number.add
                    (Number.abs
                       (Number.sub (Number.ofQ highValue)
                          (Number.ofQ lowValue)))
                    (fst pointSize) in
                let _ := round8 diff in
                Ok (MQuantity diff u)
          | _ => Throw (UsageError
                "Cannot calculate size of Quantity Interval with different units")
          end
      | _ =>
          let diff :=
            Number.add (Number.abs (js_minus (high closed) (low closed)))
              (fst pointSize) in
          Ok (MNumber (round8 diff))
      end.

End PointSize.

End Further.

(** The collaborator [cql] has no date/time value, hence no precision to
    read. *)
Definition noPrecision (t : @DateTime cql) : string :=
  match t with end.

(** * Properties *)

(** ** Rational comparisons *)

Lemma Qle_bool_refl (x : Q) : Qle_bool x x = true.
Proof. apply Qle_bool_iff. apply Qle_refl. Qed.

Lemma Qle_bool_false (x y : Q) : Qle_bool x y = false -> y < x.
Proof.
  intro H. apply Qnot_le_lt. intro L.
  apply Qle_bool_iff in L. congruence.
Qed.

Lemma Qle_bool_total (x y : Q) : Qle_bool x y = false -> Qle_bool y x = true.
Proof.
  intro H. apply Qle_bool_iff. apply Qlt_le_weak. now apply Qle_bool_false.
Qed.

Lemma Qlt_bool_irrefl (x : Q) : Qlt_bool x x = false.
Proof. unfold Qlt_bool. now rewrite Qle_bool_refl. Qed.

Lemma Qlt_bool_true (x y : Q) : Qlt_bool x y = true <-> x < y.
Proof.
  unfold Qlt_bool. split.
  - intro H. apply Qle_bool_false. now destruct (Qle_bool y x).
  - intro H. destruct (Qle_bool y x) eqn:E; [|reflexivity].
    apply Qle_bool_iff in E. exfalso. apply (Qlt_not_le _ _ H E).
Qed.

Lemma Qlt_bool_false (x y : Q) : Qlt_bool x y = false -> y <= x.
Proof.
  unfold Qlt_bool. intro H. apply Qle_bool_iff. now destruct (Qle_bool y x).
Qed.

(** Turns the boolean comparisons among the hypotheses into
    propositions. *)
Ltac reflect_Q :=
  repeat match goal with
  | H : Qeq_bool _ _ = true |- _ => apply Qeq_bool_iff in H
  | H : Qeq_bool _ _ = false |- _ => apply Qeq_bool_neq in H
  | H : Qle_bool _ _ = true |- _ => apply Qle_bool_iff in H
  | H : Qle_bool _ _ = false |- _ => apply Qle_bool_false in H
  | H : Qlt_bool _ _ = true |- _ => apply Qlt_bool_true in H
  | H : Qlt_bool _ _ = false |- _ => apply Qlt_bool_false in H
  end.

(** Splits on every boolean comparison of the goal. *)
Ltac case_Q :=
  repeat match goal with
  | |- context [Qeq_bool ?a ?b] => destruct (Qeq_bool a b) eqn:?
  | |- context [Qle_bool ?a ?b] => destruct (Qle_bool a b) eqn:?
  | |- context [Qlt_bool ?a ?b] => destruct (Qlt_bool a b) eqn:?
  end.

(** With [l < h], equality with a closed boundary or passing both boundary
    tests is the same as lying in the range. *)
Lemma in_range_bool (l h x : Q) (lc hc : bool) :
  l < h ->
  (lc && Qeq_bool l x) || (hc && Qeq_bool h x)
  || ((if lc then Qle_bool l x else Qlt_bool l x)
      && (if hc then Qle_bool x h else Qlt_bool x h)) = true
  <-> (if lc then l <= x else l < x) /\ (if hc then x <= h else x < h).
Proof.
  intro Hlh.
  destruct lc, hc; simpl; case_Q; reflect_Q; simpl; split;
    try discriminate; try reflexivity;
    try (intros; split; lra); try (intros [? ?]; lra).
Qed.

Section Properties.

Context {C : Collaborators}.

(** ** Three-valued logic *)

Lemma and_some (a b : bool) :
  ThreeValuedLogic.and (Some a) (Some b) = Some (a && b).
Proof. now destruct a, b. Qed.

Lemma or_some (a b : bool) :
  ThreeValuedLogic.or (Some a) (Some b) = Some (a || b).
Proof. now destruct a, b. Qed.

Lemma truthy_some (b : bool) : truthy (Some b) = b.
Proof. now destruct b. Qed.

(** ** Comparisons of plain numbers and of Quantities of one unit *)

Lemma compare_scalar (r : rel) (u : option string) (x y : Q)
  (p : option precision) :
  compare r (scalar u x) (scalar u y) p = Ok (Some (numRel r x y)).
Proof.
  destruct u as [unit|]; simpl; [|reflexivity].
  now rewrite String.eqb_refl.
Qed.

Lemma cmp_equals_scalar (u : option string) (x y : Q) :
  cmp_equals (scalar u x) (scalar u y) = Ok (Some (Qeq_bool x y)).
Proof. apply compare_scalar. Qed.

Lemma cmp_lessThan_scalar (u : option string) (x y : Q)
  (p : option precision) :
  cmp_lessThan (scalar u x) (scalar u y) p = Ok (Some (Qlt_bool x y)).
Proof. apply compare_scalar. Qed.

Lemma cmp_lessThanOrEquals_scalar (u : option string) (x y : Q)
  (p : option precision) :
  cmp_lessThanOrEquals (scalar u x) (scalar u y) p
  = Ok (Some (Qle_bool x y)).
Proof. apply compare_scalar. Qed.

Lemma cmp_greaterThan_scalar (u : option string) (x y : Q)
  (p : option precision) :
  cmp_greaterThan (scalar u x) (scalar u y) p = Ok (Some (Qlt_bool y x)).
Proof. apply compare_scalar. Qed.

Lemma cmp_greaterThanOrEquals_scalar (u : option string) (x y : Q)
  (p : option precision) :
  cmp_greaterThanOrEquals (scalar u x) (scalar u y) p
  = Ok (Some (Qle_bool y x)).
Proof. apply compare_scalar. Qed.

Create Rewrite HintDb scalar.

#[local] Hint Rewrite cmp_equals_scalar cmp_lessThan_scalar
  cmp_lessThanOrEquals_scalar cmp_greaterThan_scalar
  cmp_greaterThanOrEquals_scalar and_some or_some truthy_some : scalar.

Lemma notNull_scalar (u : option string) (x : Q) :
  notNull (scalar u x) = true.
Proof. now destruct u. Qed.

Lemma isNull_scalar (u : option string) (x : Q) :
  isNull (scalar u x) = false.
Proof. now destruct u. Qed.

(** Evaluates a method on intervals whose boundaries are scalars. *)
Ltac eval_scalar :=
  cbn [bind low high lowClosed highClosed scalarInterval fst snd];
  rewrite ?notNull_scalar, ?isNull_scalar, ?andb_true_r, ?andb_false_r;
  repeat (progress (cbn [bind andb orb negb]; autorewrite with scalar)).

(** ** contains *)

Lemma contains_scalar (u : option string) (l h x : Q) (lc hc : bool)
  (p : option precision) :
  contains (scalarInterval u l h lc hc) (scalar u x) p =
  Ok (Some ((lc && Qeq_bool l x) || (hc && Qeq_bool h x)
            || ((if lc then Qle_bool l x else Qlt_bool l x)
                && (if hc then Qle_bool x h else Qlt_bool x h)))).
Proof.
  assert (P : notNull (scalar u x) && isInterval (scalar u x) = false)
    by now destruct u.
  unfold contains. rewrite P. clear P. unfold always.
  destruct lc, hc; eval_scalar.
  all: destruct (Qeq_bool l x); cbn [bind andb orb negb]; try reflexivity.
  all: eval_scalar.
  all: destruct (Qeq_bool h x); cbn [bind andb orb negb]; try reflexivity.
  all: eval_scalar; reflexivity.
Qed.

(** Equality with a closed low boundary that is not null answers true
    at once, for every kind of point. *)
Lemma contains_equal_low (this : Interval) (item : value)
  (p : option precision) :
  lowClosed this = true -> notNull (low this) = true ->
  cmp_equals (low this) item = Ok (Some true) ->
  contains this item p = Ok (Some true).
Proof. unfold contains. intros -> -> ->. reflexivity. Qed.

(** Two open boundaries are tested with the strict comparisons. *)
Lemma contains_open (this : Interval) (item : value) (p : option precision) :
  isInterval item = false ->
  lowClosed this = false -> highClosed this = false ->
  contains this item p =
  (l <- cmp_lessThan (low this) item p ;;
   h <- cmp_greaterThan (high this) item p ;;
   Ok (ThreeValuedLogic.and l h)).
Proof.
  unfold contains. intros -> -> ->. cbn [andb bind].
  now rewrite andb_false_r.
Qed.

(** Two closed boundaries that are not null, neither decidedly equal to
    the point, are tested with the non-strict comparisons. *)
Lemma contains_closed (this : Interval) (item : value) (p : option precision)
  (el eh : tri) :
  isInterval item = false ->
  lowClosed this = true -> highClosed this = true ->
  notNull (low this) = true -> notNull (high this) = true ->
  cmp_equals (low this) item = Ok el -> truthy el = false ->
  cmp_equals (high this) item = Ok eh -> truthy eh = false ->
  contains this item p =
  (l <- cmp_lessThanOrEquals (low this) item p ;;
   h <- cmp_greaterThanOrEquals (high this) item p ;;
   Ok (ThreeValuedLogic.and l h)).
Proof.
  unfold contains, notNull. intros -> -> -> Hl Hh El Tl Eh Th.
  apply negb_true_iff in Hl. apply negb_true_iff in Hh.
  rewrite Hl, Hh, El, Eh. cbn [andb negb bind]. rewrite Tl, Th.
  now rewrite andb_false_r.
Qed.

(** A closed null boundary passes every point. *)
Lemma contains_unbounded (this : Interval) (item : value)
  (p : option precision) :
  isInterval item = false ->
  unboundedClosed this = true ->
  contains this item p = Ok (Some true).
Proof.
  unfold contains, unboundedClosed, notNull. intros -> H.
  apply andb_true_iff in H as [H Hh]. apply andb_true_iff in H as [H Hhc].
  apply andb_true_iff in H as [Hlc Hl]. rewrite Hl, Hh, Hlc, Hhc.
  cbn [andb negb bind]. now rewrite andb_false_r.
Qed.

(** C1. For a point argument [contains] is three-valued.  For every kind
    of point: equality with a closed boundary gives true at once; two
    closed boundaries are tested with the non-strict comparisons and two
    open ones with the strict comparisons, joined by the three-valued
    and; a closed null boundary passes.  Over plain numbers (or
    Quantities of one unit) the answer is decided, and when the low
    boundary is below the high one it is true exactly for the points of
    the range.  With an open null boundary the answer can be unknown.
    The three examples of the specification follow, and the equality test
    that answers true for [Interval(5, 1).contains(5)]. *)
Theorem contains_point :
  (forall (this : Interval) (item : value) (p : option precision),
      lowClosed this = true -> notNull (low this) = true ->
      cmp_equals (low this) item = Ok (Some true) ->
      contains this item p = Ok (Some true))
  /\ (forall (this : Interval) (item : value) (p : option precision)
             (el eh : tri),
         isInterval item = false ->
         lowClosed this = true -> highClosed this = true ->
         notNull (low this) = true -> notNull (high this) = true ->
         cmp_equals (low this) item = Ok el -> truthy el = false ->
         cmp_equals (high this) item = Ok eh -> truthy eh = false ->
         contains this item p =
         (l <- cmp_lessThanOrEquals (low this) item p ;;
          h <- cmp_greaterThanOrEquals (high this) item p ;;
          Ok (ThreeValuedLogic.and l h)))
  /\ (forall (this : Interval) (item : value) (p : option precision),
         isInterval item = false ->
         lowClosed this = false -> highClosed this = false ->
         contains this item p =
         (l <- cmp_lessThan (low this) item p ;;
          h <- cmp_greaterThan (high this) item p ;;
          Ok (ThreeValuedLogic.and l h)))
  /\ (forall (this : Interval) (item : value) (p : option precision),
         isInterval item = false ->
         unboundedClosed this = true ->
         contains this item p = Ok (Some true))
  /\ (forall (u : option string) (l h x : Q) (lc hc : bool)
             (p : option precision),
         contains (scalarInterval u l h lc hc) (scalar u x) p =
         Ok (Some ((lc && Qeq_bool l x) || (hc && Qeq_bool h x)
                   || ((if lc then Qle_bool l x else Qlt_bool l x)
                       && (if hc then Qle_bool x h else Qlt_bool x h)))))
  /\ (forall (u : option string) (l h x : Q) (lc hc : bool)
             (p : option precision),
         l < h ->
         contains (scalarInterval u l h lc hc) (scalar u x) p
         = Ok (Some true)
         <-> (if lc then l <= x else l < x)
             /\ (if hc then x <= h else x < h))
  /\ contains (mkInterval VNull (VNum 5) false true) (VNum 3) None = Ok None
  /\ contains (numInterval 1 5 true true) (VNum 3) None = Ok (Some true)
  /\ contains (numInterval 1 5 true true) (VNum 5) None = Ok (Some true)
  /\ contains (numInterval 1 5 true false) (VNum 5) None = Ok (Some false)
  /\ contains (numInterval 5 1 true true) (VNum 5) None = Ok (Some true).
Proof.
  split; [exact contains_equal_low|].
  split; [exact contains_closed|].
  split; [exact contains_open|].
  split; [exact contains_unbounded|].
  split; [exact contains_scalar|].
  split; [|repeat split].
  intros u l h x lc hc p Hlh. rewrite contains_scalar.
  rewrite <- (in_range_bool l h x lc hc Hlh).
  split; [intro H; now injection H | intros ->; reflexivity].
Qed.




(** ** overlaps, overlapsBefore and overlapsAfter with a point *)









(** ** meetsBefore and meetsAfter *)

(** C8. [meetsBefore] and [meetsAfter] always return: whatever the two
    operands and the precision, an exception raised in the [try] block is
    replaced by the answer false, and an answer of the block is returned
    as it is. *)
Theorem meets_swallows_exceptions (this : Interval) (other : value)
  (p : option precision) :
  (exists t, meetsBefore this other p = Ok t)
  /\ (exists t, meetsAfter this other p = Ok t)
  /\ (forall e, meetsBeforeBody this other p = Throw e ->
                meetsBefore this other p = Ok (Some false))
  /\ (forall e, meetsAfterBody this other p = Throw e ->
                meetsAfter this other p = Ok (Some false))
  /\ (forall t, meetsBeforeBody this other p = Ok t ->
                meetsBefore this other p = Ok t)
  /\ (forall t, meetsAfterBody this other p = Ok t ->
                meetsAfter this other p = Ok t).
Proof.
  unfold meetsBefore, meetsAfter.
  repeat split.
  - destruct (meetsBeforeBody this other p); simpl; eauto.
  - destruct (meetsAfterBody this other p); simpl; eauto.
  - intros e ->. reflexivity.
  - intros e ->. reflexivity.
  - intros t ->. reflexivity.
  - intros t ->. reflexivity.
Qed.

(** [meets] never throws either. *)
Lemma meets_returns (this : Interval) (other : value) (p : option precision) :
  exists t, meets this other p = Ok t.
Proof.
  unfold meets, meetsBefore, meetsAfter.
  destruct (meetsBeforeBody this other p), (meetsAfterBody this other p);
    simpl; eauto.
Qed.

(** ** except *)

(** C3.  [except] with an interval argument [o], by the answer of
    [overlaps]: decidedly false, the receiver itself; decidedly true with
    [overlapsBefore] true and [overlapsAfter] false, the part of the
    receiver below [o], whose high boundary is the low boundary of [o]
    with the opposite closed flag; decidedly true with [overlapsAfter]
    true and [overlapsBefore] false, the part above [o]; any other
    pattern, and an unknown [overlaps], no result.
    [Interval(1, 10).except(Interval(5, 10))] is [Interval(1, 5, true,
    false)]. *)
Theorem except_cases (this o : Interval) :
  (overlaps this (ofInterval o) None = Ok (Some false) ->
   except this (ofInterval o) = Ok (Some this))
  /\ (overlaps this (ofInterval o) None = Ok (Some true) ->
      overlapsBefore this (ofInterval o) None = Ok (Some true) ->
      overlapsAfter this (ofInterval o) None = Ok (Some false) ->
      except this (ofInterval o)
      = Ok (Some (mkInterval (low this) (low o)
                    (lowClosed this) (negb (lowClosed o)))))
  /\ (overlaps this (ofInterval o) None = Ok (Some true) ->
      overlapsBefore this (ofInterval o) None = Ok (Some false) ->
      overlapsAfter this (ofInterval o) None = Ok (Some true) ->
      except this (ofInterval o)
      = Ok (Some (mkInterval (high o) (high this)
                    (negb (highClosed o)) (highClosed this))))
  /\ (overlaps this (ofInterval o) None = Ok None ->
      except this (ofInterval o) = Ok None)
  /\ (forall olb ola,
         overlaps this (ofInterval o) None = Ok (Some true) ->
         overlapsBefore this (ofInterval o) None = Ok olb ->
         overlapsAfter this (ofInterval o) None = Ok ola ->
         (olb, ola) <> (Some true, Some false) ->
         (olb, ola) <> (Some false, Some true) ->
         except this (ofInterval o) = Ok None)
  /\ except (numInterval 1 10 true true)
       (ofInterval (numInterval 5 10 true true))
     = Ok (Some (numInterval 1 5 true false)).
Proof.
  unfold except at 1 2 3 4 5. simpl.
  repeat split.
  - intros ->. destruct this; reflexivity.
  - intros -> -> ->. reflexivity.
  - intros -> -> ->. reflexivity.
  - intros ->. reflexivity.
  - intros olb ola -> -> -> H1 H2. simpl.
    destruct olb as [[|]|], ola as [[|]|]; try reflexivity;
      exfalso; (now apply H1) || (now apply H2).
Qed.

(** ** toClosed *)

Lemma asInterval_ofInterval (i : Interval) : asInterval (ofInterval i) = Some i.
Proof. now destruct i. Qed.



Lemma toClosed_scalar (u : option string) (l h : Q) (lc hc : bool) :
  toClosed (scalarInterval u l h lc hc) =
  (l' <- lowStep l lc ;; h' <- highStep h hc ;;
   Ok (scalarInterval u l' h' true true)).
Proof.
  unfold toClosed, scalarInterval, lowStep, highStep.
  destruct u as [unit|]; simpl.
  all: destruct lc, hc; simpl; try reflexivity.
  all: try (now destruct (stepDown h)).
  all: try (now destruct (stepUp l)).
  all: destruct (stepUp l); simpl; [|reflexivity]; now destruct (stepDown h).
Qed.

Lemma toClosed_scalar_inv (u : option string) (l h : Q) (lc hc : bool)
  (c : Interval) :
  toClosed (scalarInterval u l h lc hc) = Ok c ->
  exists l' h', c = scalarInterval u l' h' true true
                /\ lowStep l lc = Ok l' /\ highStep h hc = Ok h'.
Proof.
  rewrite toClosed_scalar.
  destruct (lowStep l lc) as [l'|]; simpl; [|discriminate].
  destruct (highStep h hc) as [h'|]; simpl; [|discriminate].
  intro H. injection H as <-. eauto.
Qed.

(** ** equals, includes and overlaps of an interval with itself *)

Lemma equals_scalar (this o : Interval) (u : option string) (a b a' b' : Q) :
  toClosed this = Ok (scalarInterval u a b true true) ->
  toClosed o = Ok (scalarInterval u a' b' true true) ->
  equals this (ofInterval o) = Ok (Some (Qeq_bool a a' && Qeq_bool b b')).
Proof.
  intros H H'. unfold equals. rewrite asInterval_ofInterval, H, H'.
  now eval_scalar.
Qed.

Lemma includes_scalar (this o : Interval) (u : option string)
  (a b a' b' : Q) (p : option precision) :
  toClosed this = Ok (scalarInterval u a b true true) ->
  toClosed o = Ok (scalarInterval u a' b' true true) ->
  includes this (ofInterval o) p = Ok (Some (Qle_bool a a' && Qle_bool b' b)).
Proof.
  intros H H'. unfold includes. rewrite asInterval_ofInterval, H, H'.
  now eval_scalar.
Qed.

Lemma overlaps_scalar (this o : Interval) (u : option string)
  (a b a' b' : Q) (p : option precision) :
  toClosed this = Ok (scalarInterval u a b true true) ->
  toClosed o = Ok (scalarInterval u a' b' true true) ->
  overlaps this (ofInterval o) p = Ok (Some (Qle_bool a b' && Qle_bool a' b)).
Proof.
  intros H H'. unfold overlaps. rewrite asInterval_ofInterval, H, H'.
  now eval_scalar.
Qed.











(** ** union and intersect *)

Lemma chooseBoundary_lowest (merge : value -> value -> value)
  (u : option string) (a b : Q) (x y : value) (mine theirs : value * bool) :
  chooseBoundary cmp_lessThanOrEquals cmp_greaterThanOrEquals merge
    (scalar u a) (scalar u b) x y mine theirs
  = Ok (if Qle_bool a b then mine else theirs).
Proof.
  unfold chooseBoundary. eval_scalar.
  destruct (Qle_bool a b) eqn:E; [reflexivity|].
  now rewrite (Qle_bool_total _ _ E).
Qed.

Lemma chooseBoundary_highest (merge : value -> value -> value)
  (u : option string) (a b : Q) (x y : value) (mine theirs : value * bool) :
  chooseBoundary cmp_greaterThanOrEquals cmp_lessThanOrEquals merge
    (scalar u a) (scalar u b) x y mine theirs
  = Ok (if Qle_bool b a then mine else theirs).
Proof.
  unfold chooseBoundary. eval_scalar.
  destruct (Qle_bool b a) eqn:E; [reflexivity|].
  now rewrite (Qle_bool_total _ _ E).
Qed.

(** [union] gives no result exactly when neither [overlaps] nor [meets]
    answers true. *)
Lemma union_none_iff (this o : Interval) :
  union this (ofInterval o) = Ok None
  <-> exists ov m,
        overlaps this (ofInterval o) None = Ok ov /\ truthy ov = false
        /\ meets this (ofInterval o) None = Ok m /\ truthy m = false.
Proof.
  unfold union. rewrite asInterval_ofInterval.
  destruct (meets_returns this (ofInterval o) None) as [m Hm].
  destruct (overlaps this (ofInterval o) None) as [ov|e]; simpl.
  - destruct (truthy ov) eqn:T; simpl.
    + split.
      * destruct (toClosed this); simpl; [|discriminate].
        destruct (toClosed o); simpl; [|discriminate].
        destruct (chooseBoundary _ _ _ _ _ _ _ _ _); simpl; [|discriminate].
        destruct (chooseBoundary _ _ _ _ _ _ _ _ _); simpl; discriminate.
      * intros (ov' & m' & H & T' & _). injection H as <-. congruence.
    + rewrite Hm. simpl. destruct (truthy m) eqn:Tm; simpl.
      * split.
        -- destruct (toClosed this); simpl; [|discriminate].
           destruct (toClosed o); simpl; [|discriminate].
           destruct (chooseBoundary _ _ _ _ _ _ _ _ _); simpl; [|discriminate].
           destruct (chooseBoundary _ _ _ _ _ _ _ _ _); simpl; discriminate.
        -- intros (ov' & m' & _ & _ & H & T'). injection H as <-. congruence.
      * split; [|reflexivity]. intros _. exists ov, m. auto.
  - split; [discriminate|]. intros (ov' & m' & H & _). discriminate.
Qed.

(** On closed forms over plain numbers, or over Quantities of one unit,
    each boundary of the union is the boundary, value and flag, of the
    operand that reaches further out. *)
Lemma union_scalar (this o : Interval) (u : option string) (al ah bl bh : Q) :
  toClosed this = Ok (scalarInterval u al ah true true) ->
  toClosed o = Ok (scalarInterval u bl bh true true) ->
  exists m,
    meets this (ofInterval o) None = Ok m
    /\ union this (ofInterval o) =
       if (Qle_bool al bh && Qle_bool bl ah) || truthy m
       then Ok (Some (mkInterval
                        (if Qle_bool al bl then low this else low o)
                        (if Qle_bool bh ah then high this else high o)
                        (if Qle_bool al bl then lowClosed this
                         else lowClosed o)
                        (if Qle_bool bh ah then highClosed this
                         else highClosed o)))
       else Ok None.
Proof.
  intros H H'.
  destruct (meets_returns this (ofInterval o) None) as [m Hm].
  exists m. split; [exact Hm|].
  unfold union. rewrite asInterval_ofInterval.
  rewrite (overlaps_scalar _ _ _ _ _ _ _ None H H'), Hm, H, H'.
  cbn [bind low high scalarInterval]. rewrite truthy_some.
  rewrite chooseBoundary_lowest, chooseBoundary_highest.
  destruct (Qle_bool al bh && Qle_bool bl ah); cbn [bind orb].
  - now destruct (Qle_bool al bl), (Qle_bool bh ah).
  - destruct (truthy m); cbn [bind]; [|reflexivity].
    now destruct (Qle_bool al bl), (Qle_bool bh ah).
Qed.

(** On such closed forms each boundary of the intersection is the
    boundary of the operand that reaches less far. *)
Lemma intersect_scalar (this o : Interval) (u : option string)
  (al ah bl bh : Q) :
  toClosed this = Ok (scalarInterval u al ah true true) ->
  toClosed o = Ok (scalarInterval u bl bh true true) ->
  intersect this (ofInterval o) =
  if Qle_bool al bh && Qle_bool bl ah
  then Ok (Some (mkInterval
                   (if Qle_bool bl al then low this else low o)
                   (if Qle_bool ah bh then high this else high o)
                   (if Qle_bool bl al then lowClosed this else lowClosed o)
                   (if Qle_bool ah bh then highClosed this
                    else highClosed o)))
  else Ok None.
Proof.
  intros H H'.
  unfold intersect. rewrite asInterval_ofInterval.
  rewrite (overlaps_scalar _ _ _ _ _ _ _ None H H'), H, H'.
  cbn [bind low high scalarInterval]. rewrite truthy_some.
  rewrite chooseBoundary_lowest, chooseBoundary_highest.
  destruct (Qle_bool al bh && Qle_bool bl ah); cbn [bind];
    [|reflexivity].
  now destruct (Qle_bool bl al), (Qle_bool ah bh).
Qed.

(** A numeric boundary: a number, or an Uncertainty between two
    numbers. *)
Lemma bounds_numeric (x : value) (a1 a2 : Q) :
  uncertaintyBounds x = (VNum a1, VNum a2) ->
  (x = VNum a1 /\ a2 = a1) \/ x = VUncertainty (VNum a1) (VNum a2).
Proof.
  destruct x; simpl; intro H; try discriminate.
  - injection H as -> <-. now left.
  - injection H as -> ->. now right.
Qed.

(** Two numeric boundaries, with the bounds [a1, a2] and [b1, b2], are
    decidedly ordered only when one range lies at or below the other. *)
Lemma compare_numeric (x y : value) (a1 a2 b1 b2 : Q)
  (p : option precision) :
  uncertaintyBounds x = (VNum a1, VNum a2) ->
  uncertaintyBounds y = (VNum b1, VNum b2) ->
  cmp_lessThanOrEquals x y p
  = Ok (if Qle_bool a2 b1 then Some true
        else if Qlt_bool b2 a1 then Some false else None)
  /\ cmp_greaterThanOrEquals x y p
     = Ok (if Qle_bool b2 a1 then Some true
           else if Qlt_bool a2 b1 then Some false else None).
Proof.
  intros Hx Hy.
  destruct (bounds_numeric _ _ _ Hx) as [[-> ->] | ->],
    (bounds_numeric _ _ _ Hy) as [[-> ->] | ->];
    unfold cmp_lessThanOrEquals, cmp_greaterThanOrEquals, compare,
      uncertainCompare; cbn; unfold Qlt_bool;
    split;
    repeat match goal with
    | |- context [Qle_bool ?a ?b] => destruct (Qle_bool a b)
    end; reflexivity.
Qed.

Lemma areNumeric_bounds (x y : value) (a1 a2 b1 b2 : Q) :
  uncertaintyBounds x = (VNum a1, VNum a2) ->
  uncertaintyBounds y = (VNum b1, VNum b2) ->
  areNumeric x y = true.
Proof.
  intros Hx Hy.
  destruct (bounds_numeric _ _ _ Hx) as [[-> ->] | ->],
    (bounds_numeric _ _ _ Hy) as [[-> ->] | ->]; reflexivity.
Qed.

(** The low boundary of a union of numeric boundaries: mine when my range
    lies at or below theirs, theirs when theirs lies at or below mine, the
    merged boundary, closed, otherwise. *)
Lemma chooseBoundary_numeric_low (merge : value -> value -> value)
  (x y x' y' : value) (a1 a2 b1 b2 : Q) (mine theirs : value * bool) :
  uncertaintyBounds x = (VNum a1, VNum a2) ->
  uncertaintyBounds y = (VNum b1, VNum b2) ->
  chooseBoundary cmp_lessThanOrEquals cmp_greaterThanOrEquals merge
    x y x' y' mine theirs
  = Ok (if Qle_bool a2 b1 then mine
        else if Qle_bool b2 a1 then theirs else (merge x y, true)).
Proof.
  intros Hx Hy. unfold chooseBoundary.
  destruct (compare_numeric x y a1 a2 b1 b2 None Hx Hy) as [-> ->].
  rewrite (areNumeric_bounds _ _ _ _ _ _ Hx Hy). cbn [bind].
  now destruct (Qle_bool a2 b1), (Qle_bool b2 a1), (Qlt_bool b2 a1),
    (Qlt_bool a2 b1).
Qed.

Lemma chooseBoundary_numeric_high (merge : value -> value -> value)
  (x y x' y' : value) (a1 a2 b1 b2 : Q) (mine theirs : value * bool) :
  uncertaintyBounds x = (VNum a1, VNum a2) ->
  uncertaintyBounds y = (VNum b1, VNum b2) ->
  chooseBoundary cmp_greaterThanOrEquals cmp_lessThanOrEquals merge
    x y x' y' mine theirs
  = Ok (if Qle_bool b2 a1 then mine
        else if Qle_bool a2 b1 then theirs else (merge x y, true)).
Proof.
  intros Hx Hy. unfold chooseBoundary.
  destruct (compare_numeric x y a1 a2 b1 b2 None Hx Hy) as [-> ->].
  rewrite (areNumeric_bounds _ _ _ _ _ _ Hx Hy). cbn [bind].
  now destruct (Qle_bool a2 b1), (Qle_bool b2 a1), (Qlt_bool b2 a1),
    (Qlt_bool a2 b1).
Qed.

(** Two numeric boundaries that are not decidedly ordered merge into an
    Uncertainty that is not a single point: from the lower of the two lows
    to the lower of the two highs. *)
Lemma lowest_undecided (x y : value) (a1 a2 b1 b2 : Q) :
  uncertaintyBounds x = (VNum a1, VNum a2) ->
  uncertaintyBounds y = (VNum b1, VNum b2) ->
  a1 <= a2 -> b1 <= b2 ->
  Qle_bool a2 b1 = false -> Qle_bool b2 a1 = false ->
  lowestNumericUncertainty x y
  = VUncertainty (VNum (if Qlt_bool a1 b1 then a1 else b1))
      (VNum (if Qlt_bool a2 b2 then a2 else b2))
  /\ (if Qlt_bool a1 b1 then a1 else b1) < (if Qlt_bool a2 b2 then a2 else b2).
Proof.
  intros Hx Hy Wx Wy U1 U2.
  unfold lowestNumericUncertainty, js_lt. rewrite Hx, Hy. cbn [toNumber].
  destruct (Qlt_bool a1 b1) eqn:E1, (Qlt_bool a2 b2) eqn:E2;
    cbn [strictEquals]; reflect_Q;
    match goal with
    | |- context [Qeq_bool ?a ?b] => destruct (Qeq_bool a b) eqn:E
    end; reflect_Q; cbn [negb]; split; try reflexivity; try lra.
Qed.

(** And, for the high boundary, from the higher of the two lows to the
    higher of the two highs. *)
Lemma highest_undecided (x y : value) (a1 a2 b1 b2 : Q) :
  uncertaintyBounds x = (VNum a1, VNum a2) ->
  uncertaintyBounds y = (VNum b1, VNum b2) ->
  a1 <= a2 -> b1 <= b2 ->
  Qle_bool a2 b1 = false -> Qle_bool b2 a1 = false ->
  highestNumericUncertainty x y
  = VUncertainty (VNum (if Qlt_bool b1 a1 then a1 else b1))
      (VNum (if Qlt_bool b2 a2 then a2 else b2))
  /\ (if Qlt_bool b1 a1 then a1 else b1) < (if Qlt_bool b2 a2 then a2 else b2).
Proof.
  intros Hx Hy Wx Wy U1 U2.
  unfold highestNumericUncertainty, js_gt, js_lt. rewrite Hx, Hy.
  cbn [toNumber].
  destruct (Qlt_bool b1 a1) eqn:E1, (Qlt_bool b2 a2) eqn:E2;
    cbn [strictEquals]; reflect_Q;
    match goal with
    | |- context [Qeq_bool ?a ?b] => destruct (Qeq_bool a b) eqn:E
    end; reflect_Q; cbn [negb]; split; try reflexivity; try lra.
Qed.

(** A result of [union] is put together from the two boundaries chosen on
    the closed forms. *)
Lemma union_boundaries (this o a b u : Interval) :
  toClosed this = Ok a -> toClosed o = Ok b ->
  union this (ofInterval o) = Ok (Some u) ->
  exists l h,
    chooseBoundary cmp_lessThanOrEquals cmp_greaterThanOrEquals
      lowestNumericUncertainty (low a) (low b) (low a) (low b)
      (low this, lowClosed this) (low o, lowClosed o) = Ok l
    /\ chooseBoundary cmp_greaterThanOrEquals cmp_lessThanOrEquals
         highestNumericUncertainty (high a) (high b) (high a) (high b)
         (high this, highClosed this) (high o, highClosed o) = Ok h
    /\ u = mkInterval (fst l) (fst h) (snd l) (snd h).
Proof.
  intros Ha Hb. unfold union. rewrite asInterval_ofInterval.
  destruct (overlaps this (ofInterval o) None) as [ov|]; cbn [bind];
    [|discriminate].
  destruct (if truthy ov then _ else _) as [[|]|]; cbn [bind];
    try discriminate.
  rewrite Ha, Hb. cbn [bind].
  destruct (chooseBoundary _ _ lowestNumericUncertainty _ _ _ _ _ _)
    as [l|]; cbn [bind]; [|discriminate].
  destruct (chooseBoundary _ _ highestNumericUncertainty _ _ _ _ _ _)
    as [h|]; cbn [bind]; [|discriminate].
  intro U. injection U as <-. eauto.
Qed.

(** [union] takes [overlaps] first, and with it the closed forms of the
    two operands: an exception there is the exception of [union]. *)
Lemma union_overlaps_throws (this o : Interval) (e : exn) :
  overlaps this (ofInterval o) None = Throw e ->
  union this (ofInterval o) = Throw e.
Proof.
  intro H. unfold union. rewrite asInterval_ofInterval, H. reflexivity.
Qed.

(** C2 (amended).  [union] with an interval argument.  (1) It gives no
    result exactly when neither [overlaps] nor [meets] answers true (each
    is false or unknown).  (2) When the boundaries of both closed forms are
    plain numbers (or Quantities of one unit), a result takes its low
    boundary, value and flag, from the operand whose closed form starts
    lower (the receiver on a tie) and its high boundary from the operand
    whose closed form ends higher (the receiver on a tie).
    (3) [Interval(1, 5).union(Interval(3, 8))] is [Interval(1, 8, true,
    true)].  (4) An exception of [overlaps], which takes the closed forms
    of both operands, is propagated, as the overflow of the successor for
    a receiver that is open at the maximum.  (5) On such scalar closed
    forms [union] always returns: the interval of (2) when [overlaps] or
    [meets] answers true, and no result otherwise.  (6) When the two low
    boundaries of the closed forms are numeric (numbers, or Uncertainties
    between numbers), the low boundary of a result is the receiver's when
    its range lies at or below the argument's, the argument's when that
    lies at or below the receiver's, and otherwise the two merged by
    [lowestNumericUncertainty], closed; with well-formed ranges the merged
    boundary is the Uncertainty from the lower of the two lows to the
    lower of the two highs, and not a single point.  (7) Likewise for the
    high boundaries, with [highestNumericUncertainty] and the higher of
    the two. *)
Theorem union_defined_outermost (this o : Interval) :
  (union this (ofInterval o) = Ok None
   <-> exists ov m,
         overlaps this (ofInterval o) None = Ok ov /\ truthy ov = false
         /\ meets this (ofInterval o) None = Ok m /\ truthy m = false)
  /\ (forall (un : option string) (al ah bl bh : Q) (u : Interval),
         toClosed this = Ok (scalarInterval un al ah true true) ->
         toClosed o = Ok (scalarInterval un bl bh true true) ->
         union this (ofInterval o) = Ok (Some u) ->
         u = mkInterval
               (if Qle_bool al bl then low this else low o)
               (if Qle_bool bh ah then high this else high o)
               (if Qle_bool al bl then lowClosed this else lowClosed o)
               (if Qle_bool bh ah then highClosed this else highClosed o))
  /\ union (numInterval 1 5 true true) (ofInterval (numInterval 3 8 true true))
     = Ok (Some (numInterval 1 8 true true))
  /\ ((forall e : exn,
          overlaps this (ofInterval o) None = Throw e ->
          union this (ofInterval o) = Throw e)
      /\ union (numInterval MAX_VALUE 5 false true)
           (ofInterval (numInterval 3 8 true true)) = Throw OverFlow)
  /\ (forall (un : option string) (al ah bl bh : Q),
         toClosed this = Ok (scalarInterval un al ah true true) ->
         toClosed o = Ok (scalarInterval un bl bh true true) ->
         exists m,
           meets this (ofInterval o) None = Ok m
           /\ union this (ofInterval o) =
              if (Qle_bool al bh && Qle_bool bl ah) || truthy m
              then Ok (Some (mkInterval
                               (if Qle_bool al bl then low this else low o)
                               (if Qle_bool bh ah then high this else high o)
                               (if Qle_bool al bl then lowClosed this
                                else lowClosed o)
                               (if Qle_bool bh ah then highClosed this
                                else highClosed o)))
              else Ok None)
  /\ (forall (a b u : Interval) (a1 a2 b1 b2 : Q),
         toClosed this = Ok a -> toClosed o = Ok b ->
         union this (ofInterval o) = Ok (Some u) ->
         uncertaintyBounds (low a) = (VNum a1, VNum a2) ->
         uncertaintyBounds (low b) = (VNum b1, VNum b2) ->
         (low u, lowClosed u)
         = (if Qle_bool a2 b1 then (low this, lowClosed this)
            else if Qle_bool b2 a1 then (low o, lowClosed o)
            else (lowestNumericUncertainty (low a) (low b), true))
         /\ (a1 <= a2 -> b1 <= b2 ->
             Qle_bool a2 b1 = false -> Qle_bool b2 a1 = false ->
             low u = VUncertainty (VNum (if Qlt_bool a1 b1 then a1 else b1))
                       (VNum (if Qlt_bool a2 b2 then a2 else b2))
             /\ lowClosed u = true
             /\ (if Qlt_bool a1 b1 then a1 else b1)
                < (if Qlt_bool a2 b2 then a2 else b2)))
  /\ (forall (a b u : Interval) (a1 a2 b1 b2 : Q),
         toClosed this = Ok a -> toClosed o = Ok b ->
         union this (ofInterval o) = Ok (Some u) ->
         uncertaintyBounds (high a) = (VNum a1, VNum a2) ->
         uncertaintyBounds (high b) = (VNum b1, VNum b2) ->
         (high u, highClosed u)
         = (if Qle_bool b2 a1 then (high this, highClosed this)
            else if Qle_bool a2 b1 then (high o, highClosed o)
            else (highestNumericUncertainty (high a) (high b), true))
         /\ (a1 <= a2 -> b1 <= b2 ->
             Qle_bool a2 b1 = false -> Qle_bool b2 a1 = false ->
             high u = VUncertainty (VNum (if Qlt_bool b1 a1 then a1 else b1))
                        (VNum (if Qlt_bool b2 a2 then a2 else b2))
             /\ highClosed u = true
             /\ (if Qlt_bool b1 a1 then a1 else b1)
                < (if Qlt_bool b2 a2 then a2 else b2))).
Proof.
  split; [apply union_none_iff|].
  split; [|split; [reflexivity|split; [|split; [|split]]]].
  - intros un al ah bl bh u H H' U.
    destruct (union_scalar _ _ _ _ _ _ _ H H') as (m & _ & E).
    rewrite E in U.
    destruct ((Qle_bool al bh && Qle_bool bl ah) || truthy m);
      [|discriminate].
    now injection U as <-.
  - split; [exact (union_overlaps_throws this o)|].
    apply union_overlaps_throws.
    unfold overlaps, numInterval. rewrite toClosed_scalar.
    unfold lowStep, stepUp. now rewrite Qeq_bool_refl.
  - intros un al ah bl bh H H'. exact (union_scalar _ _ _ _ _ _ _ H H').
  - intros a b u a1 a2 b1 b2 Ha Hb U Ba Bb.
    destruct (union_boundaries _ _ _ _ _ Ha Hb U) as (l & h & L & _ & ->).
    rewrite (chooseBoundary_numeric_low _ _ _ _ _ _ _ _ _ _ _ Ba Bb) in L.
    injection L as <-. cbn [low lowClosed].
    split; [now destruct (Qle_bool a2 b1), (Qle_bool b2 a1)|].
    intros Wa Wb U1 U2. rewrite U1, U2. cbn [fst snd].
    destruct (lowest_undecided _ _ _ _ _ _ Ba Bb Wa Wb U1 U2) as [-> Lt].
    auto.
  - intros a b u a1 a2 b1 b2 Ha Hb U Ba Bb.
    destruct (union_boundaries _ _ _ _ _ Ha Hb U) as (l & h & _ & H & ->).
    rewrite (chooseBoundary_numeric_high _ _ _ _ _ _ _ _ _ _ _ Ba Bb) in H.
    injection H as <-. cbn [high highClosed].
    split; [now destruct (Qle_bool a2 b1), (Qle_bool b2 a1)|].
    intros Wa Wb U1 U2. rewrite U1, U2. cbn [fst snd].
    destruct (highest_undecided _ _ _ _ _ _ Ba Bb Wa Wb U1 U2) as [-> Lt].
    auto.
Qed.

Lemma union_some_closed (this o u : Interval) :
  union this (ofInterval o) = Ok (Some u) ->
  exists a b, toClosed this = Ok a /\ toClosed o = Ok b.
Proof.
  unfold union, overlaps. rewrite asInterval_ofInterval.
  destruct (toClosed this) as [a|]; simpl; [|discriminate].
  destruct (toClosed o) as [b|]; simpl; [|discriminate].
  eauto.
Qed.

Lemma intersect_some_closed (this o u : Interval) :
  intersect this (ofInterval o) = Ok (Some u) ->
  exists a b, toClosed this = Ok a /\ toClosed o = Ok b.
Proof.
  unfold intersect, overlaps. rewrite asInterval_ofInterval.
  destruct (toClosed this) as [a|]; simpl; [|discriminate].
  destruct (toClosed o) as [b|]; simpl; [|discriminate].
  eauto.
Qed.

(** The closed form of an interval put together from boundaries of two
    intervals over scalars. *)
Lemma toClosed_pick (c1 c2 : bool) (u : option string) (al ah bl bh : Q)
  (alc ahc blc bhc : bool) (al' ah' bl' bh' : Q) :
  lowStep al alc = Ok al' -> highStep ah ahc = Ok ah' ->
  lowStep bl blc = Ok bl' -> highStep bh bhc = Ok bh' ->
  toClosed (mkInterval
              (if c1 then scalar u al else scalar u bl)
              (if c2 then scalar u ah else scalar u bh)
              (if c1 then alc else blc) (if c2 then ahc else bhc))
  = Ok (scalarInterval u (if c1 then al' else bl') (if c2 then ah' else bh')
          true true).
Proof.
  intros La Ha Lb Hb.
  destruct c1, c2;
    match goal with
    | |- toClosed (mkInterval (scalar u ?l) (scalar u ?h) ?lc ?hc) = _ =>
        change (mkInterval (scalar u l) (scalar u h) lc hc)
          with (scalarInterval u l h lc hc);
        rewrite (toClosed_scalar u l h lc hc)
    end;
    rewrite ?La, ?Ha, ?Lb, ?Hb; reflexivity.
Qed.

Lemma Qeq_bool_lowest (a b : Q) :
  Qeq_bool (if Qle_bool a b then a else b) (if Qle_bool b a then b else a)
  = true.
Proof.
  destruct (Qle_bool a b) eqn:E, (Qle_bool b a) eqn:E';
    try apply Qeq_bool_refl.
  - apply Qeq_bool_iff. apply Qle_antisym; now apply Qle_bool_iff.
  - rewrite (Qle_bool_total _ _ E) in E'. discriminate.
Qed.

Lemma Qeq_bool_highest (a b : Q) :
  Qeq_bool (if Qle_bool b a then a else b) (if Qle_bool a b then b else a)
  = true.
Proof.
  destruct (Qle_bool a b) eqn:E, (Qle_bool b a) eqn:E';
    try apply Qeq_bool_refl.
  - apply Qeq_bool_iff. apply Qle_antisym; now apply Qle_bool_iff.
  - rewrite (Qle_bool_total _ _ E) in E'. discriminate.
Qed.

(** C6 (amended). For two intervals whose four boundaries are plain
    numbers, or Quantities of one unit, when [union] gives a result in
    both orders the two results are decidedly equal, and likewise for
    [intersect]. *)
Theorem union_intersect_commute (u : option string) (al ah bl bh : Q)
  (alc ahc blc bhc : bool) (u1 u2 : Interval) :
  (union (scalarInterval u al ah alc ahc)
     (ofInterval (scalarInterval u bl bh blc bhc)) = Ok (Some u1) ->
   union (scalarInterval u bl bh blc bhc)
     (ofInterval (scalarInterval u al ah alc ahc)) = Ok (Some u2) ->
   equals u1 (ofInterval u2) = Ok (Some true))
  /\ (intersect (scalarInterval u al ah alc ahc)
        (ofInterval (scalarInterval u bl bh blc bhc)) = Ok (Some u1) ->
      intersect (scalarInterval u bl bh blc bhc)
        (ofInterval (scalarInterval u al ah alc ahc)) = Ok (Some u2) ->
      equals u1 (ofInterval u2) = Ok (Some true)).
Proof.
  split; intros U1 U2.
  - destruct (union_some_closed _ _ _ U1) as (a & b & Ha & Hb).
    destruct (toClosed_scalar_inv _ _ _ _ _ _ Ha)
      as (al' & ah' & -> & La & Ha').
    destruct (toClosed_scalar_inv _ _ _ _ _ _ Hb)
      as (bl' & bh' & -> & Lb & Hb').
    destruct (union_scalar _ _ _ _ _ _ _ Ha Hb) as (m & _ & E).
    rewrite E in U1.
    destruct (union_scalar _ _ _ _ _ _ _ Hb Ha) as (m' & _ & E').
    rewrite E' in U2.
    destruct ((Qle_bool al' bh' && Qle_bool bl' ah') || truthy m);
      [|discriminate].
    destruct ((Qle_bool bl' ah' && Qle_bool al' bh') || truthy m');
      [|discriminate].
    injection U1 as <-. injection U2 as <-.
    cbn [low high lowClosed highClosed scalarInterval].
    rewrite (equals_scalar _ _ _ _ _ _ _
               (toClosed_pick (Qle_bool al' bl') (Qle_bool bh' ah')
                  _ _ _ _ _ _ _ _ _ _ _ _ _ La Ha' Lb Hb')
               (toClosed_pick (Qle_bool bl' al') (Qle_bool ah' bh')
                  _ _ _ _ _ _ _ _ _ _ _ _ _ Lb Hb' La Ha')).
    now rewrite Qeq_bool_lowest, Qeq_bool_highest.
  - destruct (intersect_some_closed _ _ _ U1) as (a & b & Ha & Hb).
    destruct (toClosed_scalar_inv _ _ _ _ _ _ Ha)
      as (al' & ah' & -> & La & Ha').
    destruct (toClosed_scalar_inv _ _ _ _ _ _ Hb)
      as (bl' & bh' & -> & Lb & Hb').
    rewrite (intersect_scalar _ _ _ _ _ _ _ Ha Hb) in U1.
    rewrite (intersect_scalar _ _ _ _ _ _ _ Hb Ha) in U2.
    destruct (Qle_bool al' bh' && Qle_bool bl' ah'); [|discriminate].
    destruct (Qle_bool bl' ah' && Qle_bool al' bh'); [|discriminate].
    injection U1 as <-. injection U2 as <-.
    cbn [low high lowClosed highClosed scalarInterval].
    rewrite (equals_scalar _ _ _ _ _ _ _
               (toClosed_pick (Qle_bool bl' al') (Qle_bool ah' bh')
                  _ _ _ _ _ _ _ _ _ _ _ _ _ La Ha' Lb Hb')
               (toClosed_pick (Qle_bool al' bl') (Qle_bool bh' ah')
                  _ _ _ _ _ _ _ _ _ _ _ _ _ Lb Hb' La Ha')).
    now rewrite Qeq_bool_lowest, Qeq_bool_highest.
Qed.

(** ** sameAs *)






(** ** width *)

Lemma uncertainty_check (c : Interval) :
  (notNull (low c) && isUncertainty (low c))
  || (notNull (high c) && isUncertainty (high c))
  = isUncertainty (low c) || isUncertainty (high c).
Proof. now destruct (low c), (high c). Qed.

(** What [width] does, case by case: a usage error on a boundary of the
    date/time family; otherwise, on the closed form: [null] when a
    boundary is an Uncertainty, a usage error for Quantities of different
    units, the absolute difference as it is for Quantities of one unit,
    and the absolute difference rounded to eight decimals for plain
    numbers. *)
Lemma width_cases (this : Interval) :
  (temporalFamily (low this) || temporalFamily (high this) = true ->
   width this = Throw (UsageError
     "Width of Date, DateTime, and Time intervals is not supported"))
  /\ (temporalFamily (low this) || temporalFamily (high this) = false ->
      forall c : Interval,
        toClosed this = Ok c ->
        (isUncertainty (low c) || isUncertainty (high c) = true ->
         width this = Ok MNull)
        /\ (forall (a b : Q) (u v : string),
               c = mkInterval (VQuantity a u) (VQuantity b v) true true ->
               width this =
               if String.eqb u v then Ok (MQuantity (distance a b) u)
               else Throw (UsageError
                 "Cannot calculate width of Quantity Interval with different units"))
        /\ (forall a b : Q,
               c = numInterval a b true true ->
               width this = Ok (MNumber (round8 (distance a b))))).
Proof.
  unfold width. split.
  - intros ->. reflexivity.
  - intros -> c ->. cbn [bind]. rewrite uncertainty_check.
    split; [|split].
    + intros ->. reflexivity.
    + intros a b u v ->.
      cbn [low high].
      now destruct (String.eqb u v).
    + intros a b ->. reflexivity.
Qed.

(** * Further properties *)

(** ** intersect *)

(** X1.  [intersect] with an interval argument gives no result exactly
    when [overlaps] does not answer true (it is false or unknown).  On
    closed forms over plain numbers, or Quantities of one unit, a result
    takes its low boundary, value and flag, from the operand whose closed
    form starts higher and its high boundary from the operand whose closed
    form ends lower, the receiver on a tie. *)
Theorem intersect_defined_innermost (this o : Interval) :
  (intersect this (ofInterval o) = Ok None
   <-> exists ov,
         overlaps this (ofInterval o) None = Ok ov /\ truthy ov = false)
  /\ (forall (un : option string) (al ah bl bh : Q) (r : Interval),
         toClosed this = Ok (scalarInterval un al ah true true) ->
         toClosed o = Ok (scalarInterval un bl bh true true) ->
         intersect this (ofInterval o) = Ok (Some r) ->
         Qle_bool al bh = true /\ Qle_bool bl ah = true
         /\ r = mkInterval
                  (if Qle_bool bl al then low this else low o)
                  (if Qle_bool ah bh then high this else high o)
                  (if Qle_bool bl al then lowClosed this else lowClosed o)
                  (if Qle_bool ah bh then highClosed this
                   else highClosed o)).
Proof.
  split.
  - unfold intersect. rewrite asInterval_ofInterval.
    destruct (overlaps this (ofInterval o) None) as [ov|e]; simpl.
    + destruct (truthy ov) eqn:T.
      * split.
        -- destruct (toClosed this); simpl; [|discriminate].
           destruct (toClosed o); simpl; [|discriminate].
           destruct (chooseBoundary _ _ _ _ _ _ _ _ _); simpl; [|discriminate].
           destruct (chooseBoundary _ _ _ _ _ _ _ _ _); simpl; discriminate.
        -- intros (ov' & H & T'). injection H as <-. congruence.
      * split; [|reflexivity]. intros _. exists ov. auto.
    + split; [discriminate|]. intros (ov' & H & _). discriminate.
  - intros un al ah bl bh r H H' I.
    rewrite (intersect_scalar _ _ _ _ _ _ _ H H') in I.
    destruct (Qle_bool al bh) eqn:E1, (Qle_bool bl ah) eqn:E2;
      try discriminate.
    cbn [andb] in I. injection I as <-. auto.
Qed.

(** ** includes, includedIn, properlyIncludes and equals *)

(** Closes a goal of rational arithmetic after the comparisons were
    split and reflected. *)
Ltac solve_Q :=
  reflect_Q;
  first
    [ lra
    | exfalso; lra
    | match goal with
      | H : ~ _ == _ |- _ => exfalso; apply H; lra
      end ].

(** Settles a statement about decided three-valued answers by cases on
    every comparison in it. *)
Ltac decide_Q :=
  case_Q; cbn [andb orb negb];
  repeat split; intros;
  repeat match goal with
  | H : _ /\ _ |- _ => destruct H
  end;
  try discriminate; try reflexivity; try solve_Q.

Lemma properlyIncludes_scalar (this o : Interval) (u : option string)
  (a b a' b' : Q) (p : option precision) :
  toClosed this = Ok (scalarInterval u a b true true) ->
  toClosed o = Ok (scalarInterval u a' b' true true) ->
  properlyIncludes this (ofInterval o) p
  = Ok (Some ((Qle_bool a a' && Qle_bool b' b)
              && negb (Qle_bool a' a && Qle_bool b b'))).
Proof.
  intros H H'. unfold properlyIncludes.
  rewrite asInterval_ofInterval.
  rewrite (includes_scalar _ _ _ _ _ _ _ p H H'),
    (includes_scalar _ _ _ _ _ _ _ p H' H).
  cbn [bind ThreeValuedLogic.not]. now rewrite and_some.
Qed.


(** X3.  On such closed forms [includes] is transitive. *)
Theorem includes_transitive (x y z : Interval) (u : option string)
  (a b a' b' a'' b'' : Q) (p : option precision) :
  toClosed x = Ok (scalarInterval u a b true true) ->
  toClosed y = Ok (scalarInterval u a' b' true true) ->
  toClosed z = Ok (scalarInterval u a'' b'' true true) ->
  includes x (ofInterval y) p = Ok (Some true) ->
  includes y (ofInterval z) p = Ok (Some true) ->
  includes x (ofInterval z) p = Ok (Some true).
Proof.
  intros Hx Hy Hz.
  rewrite (includes_scalar _ _ _ _ _ _ _ p Hx Hy),
    (includes_scalar _ _ _ _ _ _ _ p Hy Hz),
    (includes_scalar _ _ _ _ _ _ _ p Hx Hz).
  decide_Q.
Qed.

(** X4.  On such closed forms [properlyIncludes] is true exactly when
    [includes] is true and [equals] is false; no interval properly
    includes itself, and two intervals never properly include each
    other. *)
Theorem properlyIncludes_strict (this o : Interval) (u : option string)
  (a b a' b' : Q) (p : option precision) :
  toClosed this = Ok (scalarInterval u a b true true) ->
  toClosed o = Ok (scalarInterval u a' b' true true) ->
  (properlyIncludes this (ofInterval o) p = Ok (Some true)
   <-> includes this (ofInterval o) p = Ok (Some true)
       /\ equals this (ofInterval o) = Ok (Some false))
  /\ properlyIncludes this (ofInterval this) p = Ok (Some false)
  /\ (properlyIncludes this (ofInterval o) p = Ok (Some true) ->
      properlyIncludes o (ofInterval this) p = Ok (Some false)).
Proof.
  intros H H'.
  rewrite (properlyIncludes_scalar _ _ _ _ _ _ _ p H H'),
    (properlyIncludes_scalar _ _ _ _ _ _ _ p H H),
    (properlyIncludes_scalar _ _ _ _ _ _ _ p H' H),
    (includes_scalar _ _ _ _ _ _ _ p H H'),
    (equals_scalar _ _ _ _ _ _ _ H H').
  rewrite !Qle_bool_refl.
  decide_Q.
Qed.

(** An argument that is not an interval: [union], [intersect] and
    [properlyIncludes] throw a usage error ([intersect] with the message
    of [union]); [except] returns no result for [null] and throws for
    anything else; [equals] answers false; [includes] and [includedIn]
    fall back on [contains]. *)
Theorem non_interval_argument (this : Interval) (x : value)
  (p : option precision) :
  isInterval x = false ->
  union this x = Throw (UsageError "Argument to union must be an interval")
  /\ intersect this x
     = Throw (UsageError "Argument to union must be an interval")
  /\ properlyIncludes this x p
     = Throw (UsageError "Argument to properlyIncludes must be an interval")
  /\ except this x
     = (if isNull x then Ok None
        else Throw (UsageError "Argument to except must be an interval"))
  /\ equals this x = Ok (Some false)
  /\ includes this x p = contains this x p
  /\ includedIn this x p = contains this x p.
Proof. destruct x; intro H; try discriminate; repeat split. Qed.

(** ** overlaps, before and after *)

Lemma after_scalar (this o : Interval) (u : option string) (a b a' b' : Q)
  (p : option precision) :
  toClosed this = Ok (scalarInterval u a b true true) ->
  toClosed o = Ok (scalarInterval u a' b' true true) ->
  after this (ofInterval o) p = Ok (Some (Qlt_bool b' a)).
Proof.
  intros H H'. unfold after. rewrite H. cbn [bind].
  rewrite asInterval_ofInterval. unfold ofInterval. rewrite H'.
  now eval_scalar.
Qed.

Lemma before_scalar (this o : Interval) (u : option string) (a b a' b' : Q)
  (p : option precision) :
  toClosed this = Ok (scalarInterval u a b true true) ->
  toClosed o = Ok (scalarInterval u a' b' true true) ->
  before this (ofInterval o) p = Ok (Some (Qlt_bool b a')).
Proof.
  intros H H'. unfold before. rewrite H. cbn [bind].
  rewrite asInterval_ofInterval. unfold ofInterval. rewrite H'.
  now eval_scalar.
Qed.

(** X5.  On closed forms over plain numbers, or Quantities of one unit:
    [overlaps] is symmetric; [before] is [after] with the roles
    exchanged; two intervals overlap exactly when neither is before nor
    after the other; and when neither closed form is empty, an interval is
    not both before and after another. *)
Theorem overlaps_before_after (this o : Interval) (u : option string)
  (a b a' b' : Q) (p : option precision) :
  toClosed this = Ok (scalarInterval u a b true true) ->
  toClosed o = Ok (scalarInterval u a' b' true true) ->
  overlaps this (ofInterval o) p = overlaps o (ofInterval this) p
  /\ before this (ofInterval o) p = after o (ofInterval this) p
  /\ (overlaps this (ofInterval o) p = Ok (Some true)
      <-> before this (ofInterval o) p = Ok (Some false)
          /\ after this (ofInterval o) p = Ok (Some false))
  /\ (a <= b -> a' <= b' ->
      before this (ofInterval o) p = Ok (Some true) ->
      after this (ofInterval o) p = Ok (Some false)).
Proof.
  intros H H'.
  rewrite (overlaps_scalar _ _ _ _ _ _ _ p H H'),
    (overlaps_scalar _ _ _ _ _ _ _ p H' H),
    (before_scalar _ _ _ _ _ _ _ p H H'),
    (after_scalar _ _ _ _ _ _ _ p H' H),
    (after_scalar _ _ _ _ _ _ _ p H H').
  split; [now rewrite andb_comm|]. split; [reflexivity|].
  decide_Q.
Qed.

(** X6.  On such closed forms [equals] is symmetric and transitive, and
    it answers true exactly when the two closed forms have equal
    boundaries, whatever the closed flags of the intervals were. *)
Theorem equals_equivalence (x y z : Interval) (u : option string)
  (a b a' b' a'' b'' : Q) :
  toClosed x = Ok (scalarInterval u a b true true) ->
  toClosed y = Ok (scalarInterval u a' b' true true) ->
  toClosed z = Ok (scalarInterval u a'' b'' true true) ->
  equals x (ofInterval y) = equals y (ofInterval x)
  /\ (equals x (ofInterval y) = Ok (Some true) <-> a == a' /\ b == b')
  /\ (equals x (ofInterval y) = Ok (Some true) ->
      equals y (ofInterval z) = Ok (Some true) ->
      equals x (ofInterval z) = Ok (Some true)).
Proof.
  intros Hx Hy Hz.
  rewrite (equals_scalar _ _ _ _ _ _ _ Hx Hy),
    (equals_scalar _ _ _ _ _ _ _ Hy Hx),
    (equals_scalar _ _ _ _ _ _ _ Hy Hz),
    (equals_scalar _ _ _ _ _ _ _ Hx Hz).
  decide_Q.
Qed.

(** ** union, intersect and except against includes and overlaps *)

(** X7.  For two intervals over plain numbers, or Quantities of one unit,
    a union includes both operands. *)
Theorem union_includes_operands (u : option string) (al ah bl bh : Q)
  (alc ahc blc bhc : bool) (r : Interval) (p : option precision) :
  union (scalarInterval u al ah alc ahc)
    (ofInterval (scalarInterval u bl bh blc bhc)) = Ok (Some r) ->
  includes r (ofInterval (scalarInterval u al ah alc ahc)) p
  = Ok (Some true)
  /\ includes r (ofInterval (scalarInterval u bl bh blc bhc)) p
     = Ok (Some true).
Proof.
  intro U.
  destruct (union_some_closed _ _ _ U) as (a & b & Ha & Hb).
  destruct (toClosed_scalar_inv _ _ _ _ _ _ Ha)
    as (al' & ah' & -> & La & Ha').
  destruct (toClosed_scalar_inv _ _ _ _ _ _ Hb)
    as (bl' & bh' & -> & Lb & Hb').
  destruct (union_scalar _ _ _ _ _ _ _ Ha Hb) as (m & _ & E).
  rewrite E in U.
  destruct ((Qle_bool al' bh' && Qle_bool bl' ah') || truthy m);
    [|discriminate].
  injection U as <-.
  cbn [low high lowClosed highClosed scalarInterval].
  pose proof (toClosed_pick (Qle_bool al' bl') (Qle_bool bh' ah')
                u _ _ _ _ _ _ _ _ _ _ _ _ La Ha' Lb Hb') as R.
  rewrite (includes_scalar _ _ _ _ _ _ _ p R Ha),
    (includes_scalar _ _ _ _ _ _ _ p R Hb).
  destruct (Qle_bool al' bl') eqn:E1, (Qle_bool bh' ah') eqn:E2;
    rewrite ?Qle_bool_refl, ?E1, ?E2; cbn [andb];
    rewrite ?(Qle_bool_total _ _ E1), ?(Qle_bool_total _ _ E2); auto.
Qed.

(** X8.  For two such intervals an intersection is included in both
    operands; and when neither operand has an empty closed form (each
    overlaps itself), neither has the intersection. *)
Theorem intersect_included_in_operands (u : option string) (al ah bl bh : Q)
  (alc ahc blc bhc : bool) (r : Interval) (p : option precision) :
  intersect (scalarInterval u al ah alc ahc)
    (ofInterval (scalarInterval u bl bh blc bhc)) = Ok (Some r) ->
  includes (scalarInterval u al ah alc ahc) (ofInterval r) p
  = Ok (Some true)
  /\ includes (scalarInterval u bl bh blc bhc) (ofInterval r) p
     = Ok (Some true)
  /\ (overlaps (scalarInterval u al ah alc ahc)
        (ofInterval (scalarInterval u al ah alc ahc)) p = Ok (Some true) ->
      overlaps (scalarInterval u bl bh blc bhc)
        (ofInterval (scalarInterval u bl bh blc bhc)) p = Ok (Some true) ->
      overlaps r (ofInterval r) p = Ok (Some true)).
Proof.
  intro I.
  destruct (intersect_some_closed _ _ _ I) as (a & b & Ha & Hb).
  destruct (toClosed_scalar_inv _ _ _ _ _ _ Ha)
    as (al' & ah' & -> & La & Ha').
  destruct (toClosed_scalar_inv _ _ _ _ _ _ Hb)
    as (bl' & bh' & -> & Lb & Hb').
  rewrite (intersect_scalar _ _ _ _ _ _ _ Ha Hb) in I.
  destruct (Qle_bool al' bh') eqn:O1; [|discriminate].
  destruct (Qle_bool bl' ah') eqn:O2; [|discriminate].
  cbn [andb] in I. injection I as <-.
  cbn [low high lowClosed highClosed scalarInterval].
  pose proof (toClosed_pick (Qle_bool bl' al') (Qle_bool ah' bh')
                u _ _ _ _ _ _ _ _ _ _ _ _ La Ha' Lb Hb') as R.
  rewrite (includes_scalar _ _ _ _ _ _ _ p Ha R),
    (includes_scalar _ _ _ _ _ _ _ p Hb R),
    (overlaps_scalar _ _ _ _ _ _ _ p Ha Ha),
    (overlaps_scalar _ _ _ _ _ _ _ p Hb Hb),
    (overlaps_scalar _ _ _ _ _ _ _ p R R).
  destruct (Qle_bool bl' al') eqn:E1, (Qle_bool ah' bh') eqn:E2;
    rewrite ?Qle_bool_refl, ?E1, ?E2, ?O1, ?O2; cbn [andb];
    rewrite ?(Qle_bool_total _ _ E1), ?(Qle_bool_total _ _ E2);
    repeat split; auto.
Qed.

Lemma overlapsBefore_scalar (this o : Interval) (u : option string)
  (a b a' b' : Q) (p : option precision) :
  toClosed this = Ok (scalarInterval u a b true true) ->
  toClosed o = Ok (scalarInterval u a' b' true true) ->
  overlapsBefore this (ofInterval o) p
  = Ok (Some (Qlt_bool a a' && Qle_bool a' b)).
Proof.
  intros H H'. unfold overlapsBefore. rewrite asInterval_ofInterval, H, H'.
  now eval_scalar.
Qed.

Lemma overlapsAfter_scalar (this o : Interval) (u : option string)
  (a b a' b' : Q) (p : option precision) :
  toClosed this = Ok (scalarInterval u a b true true) ->
  toClosed o = Ok (scalarInterval u a' b' true true) ->
  overlapsAfter this (ofInterval o) p
  = Ok (Some (Qle_bool a b' && Qlt_bool b' b)).
Proof.
  intros H H'. unfold overlapsAfter. rewrite asInterval_ofInterval, H, H'.
  now eval_scalar.
Qed.

(** [except] on closed forms over scalars. *)
Lemma except_scalar (this o : Interval) (u : option string) (a b a' b' : Q) :
  toClosed this = Ok (scalarInterval u a b true true) ->
  toClosed o = Ok (scalarInterval u a' b' true true) ->
  except this (ofInterval o) =
  if Qle_bool a b' && Qle_bool a' b then
    match Qlt_bool a a' && Qle_bool a' b, Qle_bool a b' && Qlt_bool b' b with
    | true, false =>
        Ok (Some (mkInterval (low this) (low o)
                    (lowClosed this) (negb (lowClosed o))))
    | false, true =>
        Ok (Some (mkInterval (high o) (high this)
                    (negb (highClosed o)) (highClosed this)))
    | _, _ => Ok None
    end
  else Ok (Some this).
Proof.
  intros H H'.
  pose proof (overlaps_scalar _ _ _ _ _ _ _ None H H') as Ov.
  pose proof (overlapsBefore_scalar _ _ _ _ _ _ _ None H H') as Ob.
  pose proof (overlapsAfter_scalar _ _ _ _ _ _ _ None H H') as Oa.
  destruct o as [ol oh olc ohc].
  unfold except. unfold ofInterval in *.
  cbn [asInterval low high lowClosed highClosed] in *.
  rewrite Ov, Ob, Oa. cbn [bind].
  destruct (Qle_bool a b' && Qle_bool a' b); [|reflexivity].
  destruct (Qlt_bool a a' && Qle_bool a' b),
    (Qle_bool a b' && Qlt_bool b' b); reflexivity.
Qed.

(** X9.  On closed forms over plain numbers, or Quantities of one unit,
    [except] gives no result exactly when the two intervals overlap and
    either the argument lies strictly inside the receiver on both sides,
    or the receiver lies within the argument. *)
Theorem except_no_result (this o : Interval) (u : option string)
  (a b a' b' : Q) :
  toClosed this = Ok (scalarInterval u a b true true) ->
  toClosed o = Ok (scalarInterval u a' b' true true) ->
  except this (ofInterval o) = Ok None
  <-> (a <= b' /\ a' <= b)
      /\ ((a < a' /\ b' < b) \/ (a' <= a /\ b <= b')).
Proof.
  intros H H'. rewrite (except_scalar _ _ _ _ _ _ _ H H').
  unfold Qlt_bool.
  destruct (Qle_bool a b') eqn:E1, (Qle_bool a' b) eqn:E2,
    (Qle_bool a' a) eqn:E3, (Qle_bool b b') eqn:E4;
    cbn [andb negb]; reflect_Q;
    (split; [intro X; try discriminate X | intros [[? ?] [[? ?]|[? ?]]]]);
    try reflexivity; try (exfalso; lra);
    try (split; [split; assumption|]);
    try (left; split; lra); try (right; split; lra).
Qed.

(** Stepping a boundary inwards from the two sides: the closed high
    boundary of [x] with one flag is one below the closed low boundary of
    [x] with the other flag. *)
Lemma step_below (x y z : Q) (c : bool) :
  lowStep x c = Ok y -> highStep x (negb c) = Ok z -> z == y - 1.
Proof.
  unfold lowStep, highStep, stepUp, stepDown.
  destruct c; cbn [negb].
  - destruct (Qeq_bool x MIN_VALUE); [discriminate|].
    intros Y Z. injection Y as <-. injection Z as <-. reflexivity.
  - destruct (Qeq_bool x MAX_VALUE); [discriminate|].
    intros Y Z. injection Y as <-. injection Z as <-. ring.
Qed.

Lemma step_above (x y z : Q) (c : bool) :
  highStep x c = Ok y -> lowStep x (negb c) = Ok z -> z == y + 1.
Proof.
  unfold lowStep, highStep, stepUp, stepDown.
  destruct c; cbn [negb].
  - destruct (Qeq_bool x MAX_VALUE); [discriminate|].
    intros Y Z. injection Y as <-. injection Z as <-. reflexivity.
  - destruct (Qeq_bool x MIN_VALUE); [discriminate|].
    intros Y Z. injection Y as <-. injection Z as <-. ring.
Qed.

Lemma except_some_closed (this o r : Interval) :
  except this (ofInterval o) = Ok (Some r) ->
  exists a b, toClosed this = Ok a /\ toClosed o = Ok b.
Proof.
  destruct o as [ol oh olc ohc].
  unfold except, overlaps, ofInterval.
  cbn [asInterval low high lowClosed highClosed].
  destruct (toClosed this) as [a|]; cbn [bind]; [|discriminate].
  destruct (toClosed (mkInterval ol oh olc ohc)) as [b|]; cbn [bind];
    [|discriminate].
  eauto.
Qed.

(** X10.  For two intervals over plain numbers, or Quantities of one
    unit: whenever [except] gives a result that has a closed form, the
    result does not overlap the subtracted interval and is included in
    the receiver. *)
Theorem except_remainder (u : option string) (tl th ol oh : Q)
  (tlc thc olc ohc : bool) (r rc : Interval) (p : option precision) :
  except (scalarInterval u tl th tlc thc)
    (ofInterval (scalarInterval u ol oh olc ohc)) = Ok (Some r) ->
  toClosed r = Ok rc ->
  overlaps r (ofInterval (scalarInterval u ol oh olc ohc)) p
  = Ok (Some false)
  /\ includes (scalarInterval u tl th tlc thc) (ofInterval r) p
     = Ok (Some true).
Proof.
  intros X T.
  destruct (except_some_closed _ _ _ X) as (a & b & Ha & Hb).
  destruct (toClosed_scalar_inv _ _ _ _ _ _ Ha)
    as (al' & ah' & -> & La & Ha').
  destruct (toClosed_scalar_inv _ _ _ _ _ _ Hb)
    as (bl' & bh' & -> & Lb & Hb').
  rewrite (except_scalar _ _ _ _ _ _ _ Ha Hb) in X.
  cbn [low high lowClosed highClosed scalarInterval] in X.
  unfold Qlt_bool in X.
  destruct (Qle_bool al' bh') eqn:E1, (Qle_bool bl' ah') eqn:E2,
    (Qle_bool bl' al') eqn:E3, (Qle_bool ah' bh') eqn:E4;
    cbn [andb negb] in X; try discriminate X; injection X as <-.
  (* the part after the argument *)
  1: {
    change (mkInterval (scalar u oh) (scalar u th) (negb ohc) thc)
      with (scalarInterval u oh th (negb ohc) thc) in *.
    destruct (toClosed_scalar_inv _ _ _ _ _ _ T)
      as (rl & rh & -> & Lr & Hr).
    rewrite Ha' in Hr. injection Hr as <-.
    pose proof (step_above _ _ _ _ Hb' Lr) as S.
    rewrite (overlaps_scalar _ _ _ _ _ _ _ p T Hb),
      (includes_scalar _ _ _ _ _ _ _ p Ha T).
    rewrite Qle_bool_refl, E2. cbn [andb]. rewrite andb_true_r.
    destruct (Qle_bool rl bh') eqn:F1, (Qle_bool al' rl) eqn:F2;
      reflect_Q; try (exfalso; lra); auto.
  }
  (* the part before the argument *)
  1: {
    change (mkInterval (scalar u tl) (scalar u ol) tlc (negb olc))
      with (scalarInterval u tl ol tlc (negb olc)) in *.
    destruct (toClosed_scalar_inv _ _ _ _ _ _ T)
      as (rl & rh & -> & Lr & Hr).
    rewrite La in Lr. injection Lr as <-.
    pose proof (step_below _ _ _ _ Lb Hr) as S.
    rewrite (overlaps_scalar _ _ _ _ _ _ _ p T Hb),
      (includes_scalar _ _ _ _ _ _ _ p Ha T).
    rewrite Qle_bool_refl, E1. cbn [andb].
    destruct (Qle_bool bl' rh) eqn:F1, (Qle_bool rh ah') eqn:F2;
      reflect_Q; try (exfalso; lra); auto.
  }
  (* no overlap: the receiver itself *)
  all: rewrite Ha in T; injection T as <-;
    rewrite (overlaps_scalar _ _ _ _ _ _ _ p Ha Hb),
      (includes_scalar _ _ _ _ _ _ _ p Ha Ha);
    rewrite !Qle_bool_refl, ?E1, ?E2; cbn [andb];
    rewrite ?andb_false_r; auto.
Qed.

(** ** meetsBefore, meetsAfter and meets *)

Lemma predecessor_scalar (u : option string) (x : Q) :
  predecessor (scalar u x) = (m <- stepDown x ;; Ok (scalar u m)).
Proof. now destruct u. Qed.

Lemma successor_scalar (u : option string) (x : Q) :
  successor (scalar u x) = (m <- stepUp x ;; Ok (scalar u m)).
Proof. now destruct u. Qed.

Lemma meetsBefore_scalar (this o : Interval) (u : option string)
  (a b a' b' : Q) :
  toClosed this = Ok (scalarInterval u a b true true) ->
  toClosed o = Ok (scalarInterval u a' b' true true) ->
  meetsBefore this (ofInterval o) None
  = Ok (Some (match stepDown a' with
              | Ok x => Qeq_bool b x
              | Throw _ => false
              end)).
Proof.
  intros H H'. unfold meetsBefore, meetsBeforeBody, valueToClosed.
  rewrite asInterval_ofInterval, H, H'.
  cbn [bind low high scalarInterval]. rewrite predecessor_scalar.
  destruct (stepDown a'); cbn [bind try_catch]; [|reflexivity].
  now rewrite cmp_equals_scalar.
Qed.

Lemma meetsAfter_scalar (this o : Interval) (u : option string)
  (a b a' b' : Q) :
  toClosed this = Ok (scalarInterval u a b true true) ->
  toClosed o = Ok (scalarInterval u a' b' true true) ->
  meetsAfter this (ofInterval o) None
  = Ok (Some (match stepUp b' with
              | Ok x => Qeq_bool a x
              | Throw _ => false
              end)).
Proof.
  intros H H'. unfold meetsAfter, meetsAfterBody, valueToClosed.
  rewrite asInterval_ofInterval, H, H'.
  cbn [bind low high scalarInterval]. rewrite successor_scalar.
  destruct (stepUp b'); cbn [bind try_catch]; [|reflexivity].
  now rewrite cmp_equals_scalar.
Qed.

(** X11.  On closed forms over plain numbers, or Quantities of one unit,
    and without a precision: [meetsBefore] is true exactly when the
    receiver ends one step below the start of the argument, and false
    when that step cannot be taken; [meetsAfter] likewise above the end of
    the argument; two intervals that meet do not overlap; and when the
    two steps can be taken, [meetsBefore] is [meetsAfter] with the roles
    exchanged. *)
Theorem meets_adjacent (this o : Interval) (u : option string)
  (a b a' b' : Q) :
  toClosed this = Ok (scalarInterval u a b true true) ->
  toClosed o = Ok (scalarInterval u a' b' true true) ->
  meetsBefore this (ofInterval o) None
  = Ok (Some (match stepDown a' with
              | Ok x => Qeq_bool b x
              | Throw _ => false
              end))
  /\ meetsAfter this (ofInterval o) None
     = Ok (Some (match stepUp b' with
                 | Ok x => Qeq_bool a x
                 | Throw _ => false
                 end))
  /\ (meets this (ofInterval o) None = Ok (Some true) ->
      overlaps this (ofInterval o) None = Ok (Some false))
  /\ (Qeq_bool a' MIN_VALUE = false -> Qeq_bool b MAX_VALUE = false ->
      meetsBefore this (ofInterval o) None
      = meetsAfter o (ofInterval this) None).
Proof.
  intros H H'.
  pose proof (meetsBefore_scalar _ _ _ _ _ _ _ H H') as MB.
  pose proof (meetsAfter_scalar _ _ _ _ _ _ _ H H') as MA.
  split; [exact MB|]. split; [exact MA|]. split.
  - unfold meets. rewrite MB, MA, (overlaps_scalar _ _ _ _ _ _ _ None H H').
    cbn [bind]. rewrite or_some. unfold stepDown, stepUp.
    destruct (Qeq_bool a' MIN_VALUE), (Qeq_bool b' MAX_VALUE);
      cbn [orb]; decide_Q.
  - intros Na Nb. rewrite MB, (meetsAfter_scalar _ _ _ _ _ _ _ H' H).
    unfold stepDown, stepUp. rewrite Na, Nb. decide_Q.
Qed.

(** ** starts and ends *)

Lemma js_and_some (a b : bool) : js_and (Some a) (Some b) = Some (a && b).
Proof. now destruct a, b. Qed.

Lemma isDateTime_scalar (u : option string) (x : Q) :
  isDateTime (scalar u x) = false.
Proof. now destruct u. Qed.

(** X12.  Over plain numbers, or Quantities of one unit, [starts] and
    [ends] compare the boundary values as they are given and do not read
    the closed flags: [starts] is true exactly when the low values are
    equal and the receiver's high value is at most the argument's, for
    every choice of the four flags and every precision.  So when both
    intervals are closed on both sides an interval that starts (or ends)
    another is included in it, while [Interval(1, 5, false, true)]
    starts [Interval(1, 10)] although 1 is not in it. *)
Theorem starts_ends_ignore_flags (u : option string) (l h l' h' : Q)
  (lc hc lc' hc' : bool) (p : option precision) :
  starts (scalarInterval u l h lc hc) (scalarInterval u l' h' lc' hc') p
  = Ok (Some (Qeq_bool l l' && Qle_bool h h'))
  /\ ends (scalarInterval u l h lc hc) (scalarInterval u l' h' lc' hc') p
     = Ok (Some (Qle_bool l' l && Qeq_bool h h'))
  /\ (starts (scalarInterval u l h true true)
        (scalarInterval u l' h' true true) p = Ok (Some true) ->
      includes (scalarInterval u l' h' true true)
        (ofInterval (scalarInterval u l h true true)) p = Ok (Some true))
  /\ (ends (scalarInterval u l h true true)
        (scalarInterval u l' h' true true) p = Ok (Some true) ->
      includes (scalarInterval u l' h' true true)
        (ofInterval (scalarInterval u l h true true)) p = Ok (Some true))
  /\ starts (numInterval 1 5 false true) (numInterval 1 10 true true) None
     = Ok (Some true)
  /\ contains (numInterval 1 5 false true) (VNum 1) None = Ok (Some false).
Proof.
  assert (S : forall lc hc lc' hc',
             starts (scalarInterval u l h lc hc)
               (scalarInterval u l' h' lc' hc') p
             = Ok (Some (Qeq_bool l l' && Qle_bool h h'))).
  { intros. unfold starts. cbn [low high scalarInterval].
    rewrite isDateTime_scalar, andb_false_r.
    rewrite cmp_equals_scalar, cmp_lessThanOrEquals_scalar.
    cbn [bind]. now rewrite js_and_some. }
  assert (E : forall lc hc lc' hc',
             ends (scalarInterval u l h lc hc)
               (scalarInterval u l' h' lc' hc') p
             = Ok (Some (Qle_bool l' l && Qeq_bool h h'))).
  { intros. unfold ends. cbn [low high scalarInterval].
    rewrite isDateTime_scalar, notNull_scalar, andb_false_r.
    rewrite cmp_equals_scalar, cmp_greaterThanOrEquals_scalar.
    cbn [bind]. now rewrite js_and_some. }
  split; [apply S|]. split; [apply E|].
  pose proof (toClosed_scalar u l h true true) as T.
  pose proof (toClosed_scalar u l' h' true true) as T'.
  cbn [lowStep highStep bind] in T, T'.
  rewrite S, E, (includes_scalar _ _ _ _ _ _ _ p T' T).
  split; [|split; [|split; reflexivity]]; decide_Q.
Qed.

(** ** lowestNumericUncertainty and highestNumericUncertainty *)

(** X14.  Merging two numeric operands, each a number or an Uncertainty
    with [low <= high]: [lowestNumericUncertainty] has the lower of the
    two lows and the lower of the two highs, [highestNumericUncertainty]
    the higher of each; the merged low is at most the merged high, and
    the result is a plain number when the two coincide and an Uncertainty
    otherwise. *)
Theorem merge_well_formed (x y : value) (a1 a2 b1 b2 : Q) :
  uncertaintyBounds x = (VNum a1, VNum a2) ->
  uncertaintyBounds y = (VNum b1, VNum b2) ->
  a1 <= a2 -> b1 <= b2 ->
  (exists l h,
      lowestNumericUncertainty x y
      = (if Qeq_bool l h then VNum l else VUncertainty (VNum l) (VNum h))
      /\ l <= h
      /\ l <= a1 /\ l <= b1 /\ (l = a1 \/ l = b1)
      /\ h <= a2 /\ h <= b2 /\ (h = a2 \/ h = b2))
  /\ (exists l h,
         highestNumericUncertainty x y
         = (if Qeq_bool l h then VNum l else VUncertainty (VNum l) (VNum h))
         /\ l <= h
         /\ a1 <= l /\ b1 <= l /\ (l = a1 \/ l = b1)
         /\ a2 <= h /\ b2 <= h /\ (h = a2 \/ h = b2)).
Proof.
  intros Bx By Wx Wy.
  unfold lowestNumericUncertainty, highestNumericUncertainty, js_gt, js_lt.
  rewrite Bx, By. cbn [toNumber].
  split.
  - exists (if Qlt_bool a1 b1 then a1 else b1),
      (if Qlt_bool a2 b2 then a2 else b2).
    destruct (Qlt_bool a1 b1) eqn:E1, (Qlt_bool a2 b2) eqn:E2;
      cbn [strictEquals]; reflect_Q;
      (split; [now destruct (Qeq_bool _ _)|]);
      repeat split; auto; lra.
  - exists (if Qlt_bool b1 a1 then a1 else b1),
      (if Qlt_bool b2 a2 then a2 else b2).
    destruct (Qlt_bool b1 a1) eqn:E1, (Qlt_bool b2 a2) eqn:E2;
      cbn [strictEquals]; reflect_Q;
      (split; [now destruct (Qeq_bool _ _)|]);
      repeat split; auto; lra.
Qed.

(** ** toClosed on half-bounded intervals *)

(** The closed form of an interval with one null boundary and one
    boundary that is a plain number or a Quantity: the bounded side is
    stepped inwards when open; a closed null side becomes the sentinel of
    the type; an open null side becomes the Uncertainty between the
    sentinel and the closed form of the other side.  An interval with two
    null boundaries keeps them and only loses its open flags. *)
Theorem toClosed_half_bounded (u : option string) (x : Q) (lc hc : bool) :
  toClosed (mkInterval VNull (scalar u x) lc hc)
  = (h <- highStep x hc ;;
     Ok (mkInterval
           (if lc then scalar u MIN_VALUE
            else VUncertainty (scalar u MIN_VALUE) (scalar u h))
           (scalar u h) true true))
  /\ toClosed (mkInterval (scalar u x) VNull lc hc)
     = (l <- lowStep x lc ;;
        Ok (mkInterval (scalar u l)
              (if hc then scalar u MAX_VALUE
               else VUncertainty (scalar u l) (scalar u MAX_VALUE))
              true true))
  /\ toClosed (mkInterval VNull VNull lc hc)
     = Ok (mkInterval VNull VNull true true).
Proof.
  unfold toClosed, highStep, lowStep.
  destruct u as [unit|]; cbn.
  all: split; [|split; [|reflexivity]].
  all: destruct lc, hc; cbn; try reflexivity.
  all: try (destruct (stepDown x); reflexivity).
  all: try (destruct (stepUp x); reflexivity).
Qed.

(** ** sameAs and equals *)

(** X15.  On two intervals whose four boundaries are plain numbers
    [sameAs] is [equals]: the same answer and the same exception,
    whatever the closed flags and the precision. *)
Theorem sameAs_is_equals_on_numbers (l h l' h' : Q) (lc hc lc' hc' : bool)
  (p : option precision) :
  sameAs (numInterval l h lc hc) (numInterval l' h' lc' hc') p
  = equals (numInterval l h lc hc) (ofInterval (numInterval l' h' lc' hc')).
Proof.
  unfold sameAs, endpointsDiffer, equals, start, end_, openNull,
    unboundedClosed.
  rewrite asInterval_ofInterval.
  cbn [numInterval scalarInterval scalar low high lowClosed highClosed
       notNull isNull isNumber negb andb orb bind].
  unfold numInterval. rewrite !toClosed_scalar.
  destruct lc, hc, lc', hc'; cbn [andb lowStep highStep bind];
    repeat match goal with
    | |- context [stepUp ?x] => destruct (stepUp x)
    | |- context [stepDown ?x] => destruct (stepDown x)
    end;
    cbn [bind low high scalarInterval scalar strictEquals];
    try reflexivity;
    unfold cmp_equals; cbn [compare scalarCompare numRel bind];
    case_Q; reflexivity.
Qed.

(** ** contains and overlaps on a point *)

(** X17.  For an interval closed on both sides over plain numbers, or
    Quantities of one unit, whose low boundary is at most its high
    boundary, [contains] and [overlaps] give the same answer on every
    point of that type.  On [Interval(5, 1)] they differ: the boundary 5
    is contained, by the equality test, and not overlapped. *)
Theorem contains_is_overlaps_on_closed (u : option string) (l h x : Q)
  (p : option precision) :
  l <= h ->
  contains (scalarInterval u l h true true) (scalar u x) p
  = overlaps (scalarInterval u l h true true) (scalar u x) p
  /\ contains (numInterval 5 1 true true) (VNum 5) p = Ok (Some true)
  /\ overlaps (numInterval 5 1 true true) (VNum 5) p = Ok (Some false).
Proof.
  intro L. split; [|split; reflexivity].
  rewrite contains_scalar. unfold overlaps.
  assert (A : asInterval (scalar u x) = None) by now destruct u.
  rewrite A, toClosed_scalar. cbn [lowStep highStep]. eval_scalar.
  decide_Q.
Qed.

(** X18.  What every closed form satisfies: both closed flags are set;
    when the defining boundary (the low one, or the high one when the low
    one is null) is a number, a Quantity, a date or a date-time, neither
    boundary of the closed form is null; otherwise the boundaries are
    those of the interval, unchanged. *)
Theorem toClosed_invariant (this c : Interval) :
  toClosed this = Ok c ->
  let point := if notNull (low this) then low this else high this in
  lowClosed c = true /\ highClosed c = true
  /\ (isNumber point
      || (notNull point
          && (isDateTime point || isQuantity point || isDate point)) = true ->
      notNull (low c) = true /\ notNull (high c) = true)
  /\ (isNumber point
      || (notNull point
          && (isDateTime point || isQuantity point || isDate point)) = false ->
      low c = low this /\ high c = high this).
Proof.
  unfold toClosed. cbv zeta.
  match goal with |- (if ?b then _ else _) = _ -> _ => destruct b eqn:S end.
  - destruct (if lowClosed this && isNull (low this) then _ else _)
      as [l|] eqn:El; cbn [bind]; [|discriminate].
    destruct (if highClosed this && isNull (high this) then _ else _)
      as [h|] eqn:Eh; cbn [bind]; [|discriminate].
    intro H. injection H as <-. cbn [low high lowClosed highClosed].
    repeat split; try discriminate; unfold notNull.
    + now destruct (isNull l) eqn:N; [|rewrite N].
    + now destruct (isNull h) eqn:N; [|rewrite N].
  - intro H. injection H as <-. cbn [low high lowClosed highClosed].
    repeat split; discriminate.
Qed.

End Properties.

(** * Closed examples, evaluated with the collaborator [cql] *)

(** C1 (witness of the numeric law): the closed boundary 5 is inside,
    found by the equality test. *)
Lemma contains_point_witness :
  contains (C := cql) (numInterval 1 5 true true) (VNum 5) None
  = Ok (Some true).
Proof.
  apply (proj2 (proj1 (proj2 (proj2 (proj2 (proj2 (proj2
           (contains_point (C := cql)))))))
                  None 1 5 5 true true None eq_refl)).
  split; discriminate.
Defined.

(** C3 (witness): [Interval(1, 10).except(Interval(5, 10))], by the
    before-only case. *)
Lemma except_cases_witness :
  overlaps (C := cql) (numInterval 1 10 true true)
    (ofInterval (numInterval 5 10 true true)) None = Ok (Some true)
  /\ overlapsBefore (C := cql) (numInterval 1 10 true true)
       (ofInterval (numInterval 5 10 true true)) None = Ok (Some true)
  /\ overlapsAfter (C := cql) (numInterval 1 10 true true)
       (ofInterval (numInterval 5 10 true true)) None = Ok (Some false)
  /\ except (C := cql) (numInterval 1 10 true true)
       (ofInterval (numInterval 5 10 true true))
     = Ok (Some (numInterval 1 5 true false)).
Proof.
  split; [reflexivity|]. split; [reflexivity|]. split; [reflexivity|].
  exact (proj1 (proj2 (except_cases (C := cql)
                         (numInterval 1 10 true true)
                         (numInterval 5 10 true true)))
           eq_refl eq_refl eq_refl).
Defined.

(** C8 (witness): stepping the high sentinel of [[1, null]] overflows in
    the [try] block of [meetsAfter]; the answer is false. *)
Lemma meets_swallows_exceptions_witness :
  meetsAfterBody (C := cql) (numInterval 1 5 true true)
    (ofInterval (mkInterval (VNum 1) VNull true true)) None = Throw OverFlow
  /\ meetsAfter (C := cql) (numInterval 1 5 true true)
       (ofInterval (mkInterval (VNum 1) VNull true true)) None
     = Ok (Some false).
Proof.
  split; [reflexivity|].
  apply (proj1 (proj2 (proj2 (proj2
           (meets_swallows_exceptions (C := cql)
              (numInterval 1 5 true true)
              (ofInterval (mkInterval (VNum 1) VNull true true)) None))))
           OverFlow).
  reflexivity.
Defined.


(** C2 (counterexample).  [Interval(null, 5, false, true).union(
    Interval(3, 8))]: the closed low boundaries, an Uncertainty and 3, are
    not decidedly ordered; the low boundary of the result is a merged
    Uncertainty, closed, and is the low boundary of neither operand.  And
    [Interval(1, null, true, false).union(Interval(5, 8))] is no result
    although [overlaps] is unknown, not false. *)
Lemma union_outermost_counterexample :
  (union openBelow5 (ofInterval from3to8) = Ok (Some mergedUnion)
   /\ low mergedUnion <> low openBelow5
   /\ low mergedUnion <> low from3to8)
  /\ (union openAbove1 (ofInterval (numInterval 5 8 true true)) = Ok None
      /\ overlaps openAbove1 (ofInterval (numInterval 5 8 true true)) None
         = Ok None).
Proof. repeat split; discriminate. Qed.

(** C2 (witness): [Interval(1, 5).union(Interval(3, 8))]. *)
Lemma union_defined_outermost_witness :
  toClosed (C := cql) (numInterval 1 5 true true)
  = Ok (numInterval 1 5 true true)
  /\ toClosed (C := cql) (numInterval 3 8 true true)
     = Ok (numInterval 3 8 true true)
  /\ union (C := cql) (numInterval 1 5 true true)
       (ofInterval (numInterval 3 8 true true))
     = Ok (Some (numInterval 1 8 true true))
  /\ numInterval (C := cql) 1 8 true true
     = mkInterval (if Qle_bool 1 3 then VNum 1 else VNum 3)
         (if Qle_bool 8 5 then VNum 5 else VNum 8)
         (if Qle_bool 1 3 then true else true)
         (if Qle_bool 8 5 then true else true).
Proof.
  split; [reflexivity|]. split; [reflexivity|]. split; [reflexivity|].
  exact (proj1 (proj2 (union_defined_outermost (C := cql)
                         (numInterval 1 5 true true)
                         (numInterval 3 8 true true)))
           None 1 5 3 8 (numInterval 1 8 true true)
           eq_refl eq_refl eq_refl).
Defined.





(** C6 (counterexample).  Both unions of [Interval(null, 5, false, true)]
    and [Interval(3, 8)] give the same interval, whose low boundary is an
    Uncertainty; [equals] of the two results is unknown.  The same holds
    for the two intersections.  With [Interval(3, 6, true, false)] the two
    unions differ in the high boundary, 5 closed and 6 open, which
    [toClosed] leaves as they are behind an Uncertainty: [equals] of the
    two results is false.  And the unions of [Interval(null, 5)] and
    [Interval(3, null)] are [Interval(null, null)], which [equals] does
    not decide. *)
Lemma commute_counterexample :
  (union openBelow5 (ofInterval from3to8) = Ok (Some mergedUnion)
   /\ union from3to8 (ofInterval openBelow5) = Ok (Some mergedUnion)
   /\ equals mergedUnion (ofInterval mergedUnion) = Ok None)
  /\ (intersect openBelow5 (ofInterval from3to8)
      = Ok (Some mergedIntersection)
      /\ intersect from3to8 (ofInterval openBelow5)
         = Ok (Some mergedIntersection)
      /\ equals mergedIntersection (ofInterval mergedIntersection)
         = Ok None)
  /\ (union openBelow5 (ofInterval (numInterval 3 6 true false))
      = Ok (Some (mkInterval (VUncertainty (VNum (@MIN_VALUE cql)) (VNum 3))
                    (VNum 5) true true))
      /\ union (C := cql) (numInterval 3 6 true false) (ofInterval openBelow5)
         = Ok (Some (mkInterval (VUncertainty (VNum (@MIN_VALUE cql)) (VNum 3))
                       (VNum 6) true false))
      /\ equals (C := cql)
           (mkInterval (VUncertainty (VNum (@MIN_VALUE cql)) (VNum 3))
              (VNum 5) true true)
           (ofInterval
              (mkInterval (VUncertainty (VNum (@MIN_VALUE cql)) (VNum 3))
                 (VNum 6) true false))
         = Ok (Some false))
  /\ (union (C := cql) (mkInterval VNull (VNum 5) true true)
        (ofInterval (mkInterval (VNum 3) VNull true true))
      = Ok (Some unbounded)
      /\ union (C := cql) (mkInterval (VNum 3) VNull true true)
           (ofInterval (mkInterval VNull (VNum 5) true true))
         = Ok (Some unbounded)
      /\ equals unbounded (ofInterval unbounded) = Ok None).
Proof. repeat split. Qed.

(** C6 (witness): [Interval(1, 5)] and [Interval(3, 8)]. *)
Lemma union_intersect_commute_witness :
  union (C := cql) (numInterval 1 5 true true)
    (ofInterval (numInterval 3 8 true true))
  = Ok (Some (numInterval 1 8 true true))
  /\ union (C := cql) (numInterval 3 8 true true)
       (ofInterval (numInterval 1 5 true true))
     = Ok (Some (numInterval 1 8 true true))
  /\ equals (C := cql) (numInterval 1 8 true true)
       (ofInterval (numInterval 1 8 true true)) = Ok (Some true).
Proof.
  split; [reflexivity|]. split; [reflexivity|].
  exact (proj1 (union_intersect_commute (C := cql) None 1 5 3 8
                  true true true true
                  (numInterval 1 8 true true) (numInterval 1 8 true true))
           eq_refl eq_refl).
Defined.



(** C7.  [Interval(new Quantity(0, 'm'), new Quantity(2 ** -30, 'm'))
    .width()]: the Quantity branch computes the rounded difference and
    drops it; the value of the result is 2^-30 where eight decimals give
    0.  The same boundaries as plain numbers give the rounded value. *)
Theorem width_quantity_unrounded :
  width tinyQuantity = Ok (MQuantity (distance 0 (1 # 1073741824)) "m")
  /\ Number.isFinite (distance 0 (1 # 1073741824)) = true
  /\ Number.toQ (distance 0 (1 # 1073741824)) == 1 # 1073741824
  /\ round8 (distance 0 (1 # 1073741824)) = Number.ofZ 0
  /\ width (C := cql) (numInterval 0 (1 # 1073741824) true true)
     = Ok (MNumber (round8 (distance 0 (1 # 1073741824)))).
Proof. repeat split; vm_compute; reflexivity. Qed.

(** [Interval(1, 5).width()] is 4, and Quantities of different units are
    a usage error.  In binary64 [Interval(0, 5.070694645).width()] is
    5.07069464 and [Interval(0, 0.11521208499999999).width()] is
    0.11521209: the product by 10^8 is rounded before [Math.round] sees
    it. *)
Lemma width_examples :
  width (C := cql) (numInterval 1 5 true true) = Ok (MNumber (Number.ofZ 4))
  /\ width (C := cql)
       (mkInterval (VQuantity 1 "m") (VQuantity 5 "cm") true true)
     = Throw (UsageError
         "Cannot calculate width of Quantity Interval with different units")
  /\ width openBelow5 = Ok MNull
  /\ width (C := cql)
       (numInterval 0 (5070694645 # 1000000000) true true)
     = Ok (MNumber (Number.ofQ (507069464 # 100000000)))
  /\ width (C := cql)
       (numInterval 0 (11521208499999999 # 100000000000000000) true true)
     = Ok (MNumber (Number.ofQ (11521209 # 100000000))).
Proof. repeat split; vm_compute; reflexivity. Qed.

(** * Closed examples for the further properties *)

(** [Interval(1, 5)], [Interval(0, 10)], [Interval(1, 8)], [Interval(3,
    5)] and [Interval(1, 10)], used below, are written with
    [numInterval]. *)

(** X1 (witness): [Interval(1, 5).intersect(Interval(3, 8))] is
    [Interval(3, 5)]. *)
Lemma intersect_defined_innermost_witness :
  intersect (C := cql) (numInterval 1 5 true true) (ofInterval from3to8)
  = Ok (Some (numInterval 3 5 true true))
  /\ Qle_bool 1 8 = true /\ Qle_bool 3 5 = true.
Proof.
  split; [reflexivity|].
  destruct (proj2 (intersect_defined_innermost (C := cql)
                     (numInterval 1 5 true true) from3to8)
              None 1 5 3 8 (numInterval 3 5 true true)
              eq_refl eq_refl eq_refl) as (A & B & _).
  split; [exact A | exact B].
Defined.


(** X3 (witness): [Interval(0, 10)], [Interval(1, 8)], [Interval(3, 5)]. *)
Lemma includes_transitive_witness :
  includes (C := cql) (numInterval 0 10 true true)
    (ofInterval (numInterval 3 5 true true)) None = Ok (Some true).
Proof.
  exact (includes_transitive (C := cql) (numInterval 0 10 true true)
           (numInterval 1 8 true true) (numInterval 3 5 true true)
           None 0 10 1 8 3 5 None eq_refl eq_refl eq_refl eq_refl eq_refl).
Defined.

(** X4 (witness): [Interval(0, 10)] properly includes [Interval(1, 8)]. *)
Lemma properlyIncludes_strict_witness :
  properlyIncludes (C := cql) (numInterval 0 10 true true)
    (ofInterval (numInterval 1 8 true true)) None = Ok (Some true)
  /\ properlyIncludes (C := cql) (numInterval 1 8 true true)
       (ofInterval (numInterval 0 10 true true)) None = Ok (Some false).
Proof.
  destruct (properlyIncludes_strict (C := cql) (numInterval 0 10 true true)
              (numInterval 1 8 true true) None 0 10 1 8 None
              eq_refl eq_refl) as (I & _ & A).
  assert (P : properlyIncludes (C := cql) (numInterval 0 10 true true)
                (ofInterval (numInterval 1 8 true true)) None
              = Ok (Some true))
    by (apply (proj2 I); split; reflexivity).
  split; [exact P | exact (A P)].
Defined.

(** The number 3 as argument. *)
Lemma non_interval_argument_witness :
  union (C := cql) (numInterval 1 5 true true) (VNum 3)
  = Throw (UsageError "Argument to union must be an interval")
  /\ intersect (C := cql) (numInterval 1 5 true true) (VNum 3)
     = Throw (UsageError "Argument to union must be an interval").
Proof.
  destruct (non_interval_argument (C := cql) (numInterval 1 5 true true)
              (VNum 3) None eq_refl) as (U & I & _).
  split; [exact U | exact I].
Defined.

(** X5 (witness): [Interval(1, 5)] is before [Interval(6, 9)]. *)
Lemma overlaps_before_after_witness :
  before (C := cql) (numInterval 1 5 true true)
    (ofInterval (numInterval 6 9 true true)) None = Ok (Some true)
  /\ after (C := cql) (numInterval 1 5 true true)
       (ofInterval (numInterval 6 9 true true)) None = Ok (Some false).
Proof.
  split; [reflexivity|].
  apply (proj2 (proj2 (proj2
           (overlaps_before_after (C := cql) (numInterval 1 5 true true)
              (numInterval 6 9 true true) None 1 5 6 9 None
              eq_refl eq_refl)))).
  - intro X. discriminate X.
  - intro X. discriminate X.
  - reflexivity.
Defined.

(** X6 (witness): [Interval(1, 5)], [Interval(1, 6, true, false)] and
    [Interval(0, 5, false, true)] have the closed form [[1, 5]]. *)
Lemma equals_equivalence_witness :
  equals (C := cql) (numInterval 1 5 true true)
    (ofInterval (numInterval 0 5 false true)) = Ok (Some true).
Proof.
  apply (proj2 (proj2 (equals_equivalence (C := cql)
                         (numInterval 1 5 true true)
                         (numInterval 1 6 true false)
                         (numInterval 0 5 false true)
                         None 1 5 1 5 1 5 eq_refl eq_refl eq_refl)));
    reflexivity.
Defined.

(** X7 (witness): [Interval(1, 5).union(Interval(3, 8))] includes
    both. *)
Lemma union_includes_operands_witness :
  includes (C := cql) (numInterval 1 8 true true)
    (ofInterval (numInterval 1 5 true true)) None = Ok (Some true)
  /\ includes (C := cql) (numInterval 1 8 true true)
       (ofInterval (numInterval 3 8 true true)) None = Ok (Some true).
Proof.
  exact (union_includes_operands (C := cql) None 1 5 3 8
           true true true true (numInterval 1 8 true true) None eq_refl).
Defined.

(** X8 (witness): [Interval(1, 5).intersect(Interval(3, 8))] is included
    in both. *)
Lemma intersect_included_in_operands_witness :
  includes (C := cql) (numInterval 1 5 true true)
    (ofInterval (numInterval 3 5 true true)) None = Ok (Some true)
  /\ includes (C := cql) (numInterval 3 8 true true)
       (ofInterval (numInterval 3 5 true true)) None = Ok (Some true)
  /\ overlaps (C := cql) (numInterval 3 5 true true)
       (ofInterval (numInterval 3 5 true true)) None = Ok (Some true).
Proof.
  destruct (intersect_included_in_operands (C := cql) None 1 5 3 8
              true true true true (numInterval 3 5 true true) None eq_refl)
    as (A & B & N).
  split; [exact A|]. split; [exact B|]. exact (N eq_refl eq_refl).
Defined.

(** X9 (witness): [Interval(1, 10).except(Interval(3, 5))] would leave
    two pieces; there is no result. *)
Lemma except_no_result_witness :
  except (C := cql) (numInterval 1 10 true true)
    (ofInterval (numInterval 3 5 true true)) = Ok None.
Proof.
  apply (proj2 (except_no_result (C := cql) (numInterval 1 10 true true)
                  (numInterval 3 5 true true) None 1 10 3 5
                  eq_refl eq_refl)).
  split.
  - split; intro X; discriminate X.
  - left. split; reflexivity.
Defined.

(** X10 (witness): [Interval(1, 10).except(Interval(5, 10))] is
    [Interval(1, 5, true, false)], closed form [[1, 4]]. *)
Lemma except_remainder_witness :
  overlaps (C := cql) (numInterval 1 5 true false)
    (ofInterval (numInterval 5 10 true true)) None = Ok (Some false)
  /\ includes (C := cql) (numInterval 1 10 true true)
       (ofInterval (numInterval 1 5 true false)) None = Ok (Some true).
Proof.
  exact (except_remainder (C := cql) None 1 10 5 10 true true true true
           (numInterval 1 5 true false) (numInterval 1 (5 - 1) true true)
           None eq_refl eq_refl).
Defined.

(** X11 (witness): [Interval(1, 5)] meets [Interval(6, 9)] before it. *)
Lemma meets_adjacent_witness :
  meetsBefore (C := cql) (numInterval 1 5 true true)
    (ofInterval (numInterval 6 9 true true)) None = Ok (Some true)
  /\ meetsAfter (C := cql) (numInterval 6 9 true true)
       (ofInterval (numInterval 1 5 true true)) None = Ok (Some true)
  /\ overlaps (C := cql) (numInterval 1 5 true true)
       (ofInterval (numInterval 6 9 true true)) None = Ok (Some false).
Proof.
  destruct (meets_adjacent (C := cql) (numInterval 1 5 true true)
              (numInterval 6 9 true true) None 1 5 6 9 eq_refl eq_refl)
    as (B & _ & O & S).
  split; [exact B|].
  split; [rewrite <- (S eq_refl eq_refl); exact B|].
  exact (O eq_refl).
Defined.

(** X12 (witness): [Interval(1, 5)] starts [Interval(1, 10)] and is
    included in it. *)
Lemma starts_ends_ignore_flags_witness :
  includes (C := cql) (numInterval 1 10 true true)
    (ofInterval (numInterval 1 5 true true)) None = Ok (Some true).
Proof.
  exact (proj1 (proj2 (proj2
           (starts_ends_ignore_flags (C := cql) None 1 5 1 10
              true true true true None))) eq_refl).
Defined.

(** X14 (witness): the Uncertainty from 1 to 5 merged with the number
    3. *)
Lemma merge_well_formed_witness :
  exists l h,
    lowestNumericUncertainty (C := cql)
      (VUncertainty (VNum 1) (VNum 5)) (VNum 3)
    = (if Qeq_bool l h then VNum l else VUncertainty (VNum l) (VNum h))
    /\ l <= h
    /\ l <= 1 /\ l <= 3 /\ (l = 1 \/ l = 3)
    /\ h <= 5 /\ h <= 3 /\ (h = 5 \/ h = 3).
Proof.
  assert (A : 1 <= 5) by (intro X; discriminate X).
  assert (B : 3 <= 3) by (intro X; discriminate X).
  exact (proj1 (merge_well_formed (C := cql)
                  (VUncertainty (VNum 1) (VNum 5)) (VNum 3) 1 5 3 3
                  eq_refl eq_refl A B)).
Defined.

(** X17 (witness): the point 3 and [Interval(1, 5)]. *)
Lemma contains_is_overlaps_on_closed_witness :
  contains (C := cql) (numInterval 1 5 true true) (VNum 3) None
  = overlaps (C := cql) (numInterval 1 5 true true) (VNum 3) None.
Proof.
  apply (proj1 (contains_is_overlaps_on_closed (C := cql) None 1 5 3 None
                  ltac:(intro X; discriminate X))).
Defined.

(** X18 (witness): the closed form of [Interval(null, 5, false, true)]. *)
Lemma toClosed_invariant_witness :
  toClosed openBelow5
  = Ok (mkInterval (VUncertainty (VNum (@MIN_VALUE cql)) (VNum 5)) (VNum 5)
          true true)
  /\ notNull (C := cql) (VUncertainty (VNum (@MIN_VALUE cql)) (VNum 5))
     = true.
Proof.
  split; [reflexivity|].
  exact (proj1 (proj1 (proj2 (proj2
           (toClosed_invariant (C := cql) openBelow5
              (mkInterval (VUncertainty (VNum (@MIN_VALUE cql)) (VNum 5))
                 (VNum 5) true true) eq_refl))) eq_refl)).
Defined.
